(** * railway-to-tg: the webhook relay, embedded and verified

    The repository holds two variants of one Express server that relays
    Railway deployment webhooks to a Telegram chat:

    - [src/unnamed/part_000] (module [Part000] below), and
    - [src/index.js]         (module [Index] below).

    Lines 1-64 of both files are byte-identical (set-up, middleware and
    [sendMessage]); they are embedded once, in [Section Notifier].

    Conventions of the embedding

    - JavaScript values that can reach the handlers are the values produced
      by the body parsers, plus [undefined] for a request without a parsed
      body: type [value].
    - Strings are byte strings holding the UTF-8 encoding of the source
      text; the literals below are the bytes of the source files.
    - A handler run is a value of [M response]: the list of observable
      events (console lines and calls of the Telegram client) together with
      either a result or a thrown exception.
    - What the environment decides is a parameter, gathered in [world]: the
      outcome of the Telegram call, the chat identifier, and the clock
      readings spliced into messages.

    What is taken from the platform rather than from the two files

    - ECMAScript: ToBoolean, ToString and ToPropertyKey of parsed data,
      property lookup through [Object.prototype], optional chaining.
    - V8: the text of a built-in function, [function f() { [native code] }].
    - Express: a request is answered by the first registered route with
      its method and path, a GET route also answers HEAD, a request no
      route answers reaches the final [app.use("*", ...)], and an error
      passed to [next] skips to the error-handling middleware. *)

From Stdlib Require Import String Ascii List Bool ZArith Lia.
Import ListNotations.
Local Open Scope list_scope.
Local Open Scope string_scope.
Set Warnings "-register-all".

(* ===================================================================== *)
(** ** JavaScript values and the primitives the handlers use             *)
(* ===================================================================== *)

Module JS.

(** A value as [req.body] and its parts can hold it.  A number is kept as
    the decimal text [Number::toString] gives it ([-0] prints as ["0"]):
    the handlers only test numbers for truthiness, compare them with a
    string, or splice them into a template.  An object is the list of its
    own bindings, looked up from the head. *)
Inductive value : Type :=
| VUndefined
| VNull
| VBool (b : bool)
| VNum (text : string)
| VStr (s : string)
| VArr (items : list value)
| VObj (props : list (string * value)).

Inductive exn : Type :=
| TypeError (what : string)
| Rejected (why : string).

Inductive result (A : Type) : Type :=
| Ok (a : A)
| Throw (e : exn).
Arguments Ok {A} a.
Arguments Throw {A} e.

(** ToBoolean. *)
Definition truthy (v : value) : bool :=
  match v with
  | VUndefined | VNull => false
  | VBool b => b
  | VNum t => negb (t =? "0") && negb (t =? "NaN")
  | VStr s => negb (s =? "")
  | VArr _ | VObj _ => true
  end.

Fixpoint assoc {A : Type} (k : string) (l : list (string * A)) : option A :=
  match l with
  | [] => None
  | (k', x) :: rest => if k =? k' then Some x else assoc k rest
  end.

(** [own k v]: the result of reading property [k] of a value that is
    neither [undefined] nor [null], for the names the handlers read
    ([type], [status], [project], [name], [id], [environment],
    [deployment], [creator]).  None of them is defined on the prototypes of
    objects, arrays, strings, numbers or booleans, so only an own binding
    of an object answers. *)
Definition own (k : string) (v : value) : value :=
  match v with
  | VObj props => match assoc k props with Some x => x | None => VUndefined end
  | _ => VUndefined
  end.

(** [v.k]: a TypeError on [undefined] and [null]. *)
Definition member (v : value) (k : string) : result value :=
  match v with
  | VUndefined | VNull =>
      Throw (TypeError ("Cannot read properties of undefined (reading '" ++ k ++ "')"))
  | _ => Ok (own k v)
  end.

(** [v?.k]: [undefined] on [undefined] and [null]. *)
Definition opt_member (v : value) (k : string) : value :=
  match v with
  | VUndefined | VNull => VUndefined
  | _ => own k v
  end.

(** [a || b]. *)
Definition or_else (a b : value) : value := if truthy a then a else b.

(** [v === "s"]. *)
Definition is_string (s : string) (v : value) : bool :=
  match v with
  | VStr x => x =? s
  | _ => false
  end.

(** ToString, as a template literal and a computed property key apply it.
    A plain object prints through [Object.prototype.toString]; an object
    that carries an own [toString] binding (never callable in parsed data)
    has no usable conversion, since the inherited [valueOf] returns the
    object itself: OrdinaryToPrimitive throws.  An array prints through
    [Array.prototype.join], which prints [undefined] and [null] elements as
    the empty string. *)
Fixpoint to_string (v : value) : result string :=
  match v with
  | VUndefined => Ok "undefined"
  | VNull => Ok "null"
  | VBool true => Ok "true"
  | VBool false => Ok "false"
  | VNum t => Ok t
  | VStr s => Ok s
  | VArr items =>
      (fix join (first : bool) (l : list value) : result string :=
         match l with
         | [] => Ok ""
         | x :: rest =>
             match (match x with
                    | VUndefined | VNull => Ok ""
                    | _ => to_string x
                    end) with
             | Throw e => Throw e
             | Ok s =>
                 match join false rest with
                 | Throw e => Throw e
                 | Ok r => Ok ((if first then "" else ",") ++ s ++ r)
                 end
             end
         end) true items
  | VObj props =>
      match assoc "toString" props with
      | Some _ => Throw (TypeError "Cannot convert object to primitive value")
      | None => Ok "[object Object]"
      end
  end.

(** What an object literal inherits from [Object.prototype]: its member
    functions, and the prototype itself under [__proto__]. *)
Inductive builtin : Type :=
| NativeFunction (name : string)
| ObjectPrototype.

Definition object_prototype (k : string) : option builtin :=
  if k =? "constructor" then Some (NativeFunction "Object")
  else if existsb (String.eqb k)
            ["__defineGetter__"; "__defineSetter__"; "hasOwnProperty";
             "__lookupGetter__"; "__lookupSetter__"; "isPrototypeOf";
             "propertyIsEnumerable"; "toString"; "valueOf"; "toLocaleString"]
       then Some (NativeFunction k)
  else if k =? "__proto__" then Some ObjectPrototype
  else None.

(** The result of [table[k]] on an object literal whose own properties are
    strings: an own string, or an inherited member. *)
Inductive slot : Type :=
| Own (s : string)
| Inherited (b : builtin).

Definition lookup (table : list (string * string)) (k : string) : option slot :=
  match assoc k table with
  | Some s => Some (Own s)
  | None => option_map Inherited (object_prototype k)
  end.

(** [table[k] || fallback]: functions and objects are truthy. *)
Definition slot_or (found : option slot) (fallback : string) : slot :=
  match found with
  | None => Own fallback
  | Some (Own s) => if s =? "" then Own fallback else Own s
  | Some (Inherited b) => Inherited b
  end.

(** ToString of a slot (V8 prints a built-in function by its name). *)
Definition slot_text (e : slot) : string :=
  match e with
  | Own s => s
  | Inherited (NativeFunction n) => "function " ++ n ++ "() { [native code] }"
  | Inherited ObjectPrototype => "[object Object]"
  end.

(** [hay.includes(needle)]. *)
Fixpoint includes (needle hay : string) : bool :=
  prefix needle hay
  || match hay with
     | EmptyString => false
     | String _ rest => includes needle rest
     end.

Definition newline : string := String (ascii_of_nat 10) EmptyString.

(** The text of a template literal written over several source lines. *)
Fixpoint unlines (l : list string) : string :=
  match l with
  | [] => ""
  | [x] => x
  | x :: rest => x ++ newline ++ unlines rest
  end.

End JS.
Import JS.

(* ===================================================================== *)
(** ** Effects: console, Telegram client, exceptions                     *)
(* ===================================================================== *)

(** The third argument of [bot.telegram.sendMessage]. *)
Record options : Type := {
  parse_mode : string;
  disable_web_page_preview : bool;
  reply_markup : option (value * value)   (* one row, one button: text, url *)
}.

(** Observable actions.  A console line is recorded by its first argument;
    the further arguments do not influence control flow. *)
Inductive event : Type :=
| ConsoleLog (text : string)
| ConsoleError (text : string)
| TelegramSend (chat : string) (message : value) (opts : options).

Record response : Type := { status : Z; json : value }.

Definition M (A : Type) : Type := list event * result A.

Class Monad (m : Type -> Type) : Type := {
  ret : forall {A : Type}, A -> m A;
  bind : forall {A B : Type}, m A -> (A -> m B) -> m B
}.

#[global] Instance result_Monad : Monad result := {|
  ret := fun A a => Ok a;
  bind := fun A B c k => match c with Ok a => k a | Throw e => Throw e end
|}.

#[global] Instance M_Monad : Monad M := {|
  ret := fun A a => ([], Ok a);
  bind := fun A B c k =>
    match c with
    | (tr, Ok a) => let (tr', r) := k a in ((tr ++ tr')%list, r)
    | (tr, Throw e) => (tr, Throw e)
    end
|}.

Notation "x <- c ;; k" := (bind c (fun x => k))
  (at level 61, c at next level, right associativity).
Notation "c ;;; k" := (bind c (fun _ => k))
  (at level 61, right associativity).

Definition lift {A : Type} (r : result A) : M A := ([], r).

Definition console_log (text : string) : M unit := ([ConsoleLog text], Ok tt).
Definition console_error (text : string) : M unit := ([ConsoleError text], Ok tt).

(** [try { body } catch (error) { handler }]. *)
Definition try_catch {A : Type} (body : M A) (handler : exn -> M A) : M A :=
  match body with
  | (tr, Ok a) => (tr, Ok a)
  | (tr, Throw e) => let (tr', r) := handler e in ((tr ++ tr')%list, r)
  end.

Definition trace {A : Type} (run : M A) : list event := fst run.
Definition outcome {A : Type} (run : M A) : result A := snd run.

(** The calls of the Telegram client made in a run. *)
Definition outbound (tr : list event) : list (string * value * options) :=
  flat_map (fun e => match e with
                     | TelegramSend c m o => [(c, m, o)]
                     | _ => []
                     end) tr.

(** What the environment decides during one request. *)
Record world : Type := {
  TELEGRAM_CHAT_ID : string;
  (** [bot.telegram.sendMessage]: [None] when the call resolves, [Some why]
      when it throws or rejects (the call is taken to settle). *)
  telegram : string -> value -> options -> option string;
  (** [new Date().toISOString()] in the logging middleware. *)
  logged_at : string;
  (** [new Date().toLocaleString()] in the message template. *)
  now_local : string;
  (** [new Date().toISOString()] and [process.uptime()] in [/health]. *)
  now_iso : string;
  uptime : string
}.

(* ===================================================================== *)
(** ** Lines 22-64 of both files: middleware and the Notifier            *)
(* ===================================================================== *)

Section Notifier.

Variable w : world.

(** [app.use((req, res, next) => { console.log(...); next(); })]. *)
Definition request_logger (method path : string) : M unit :=
  console_log (logged_at w ++ " - " ++ method ++ " " ++ path).

Definition telegram_sendMessage (chat : string) (message : value)
    (opts : options) : M unit :=
  ([TelegramSend chat message opts],
   match telegram w chat message opts with
   | None => Ok tt
   | Some why => Throw (Rejected why)
   end).

(** A parameter declared [= null]. *)
Definition default_null (v : value) : value :=
  match v with
  | VUndefined => VNull
  | _ => v
  end.

Definition sendMessage (message buttonText buttonUrl : value) : M unit :=
  let buttonText := default_null buttonText in
  let buttonUrl := default_null buttonUrl in
  try_catch
    (let options :=
       {| parse_mode := "HTML";
          disable_web_page_preview := true;
          reply_markup := None |} in
     let options :=
       if truthy buttonText && truthy buttonUrl
       then {| parse_mode := parse_mode options;
               disable_web_page_preview := disable_web_page_preview options;
               reply_markup := Some (buttonText, buttonUrl) |}
       else options in
     telegram_sendMessage (TELEGRAM_CHAT_ID w) message options ;;;
     console_log "Message sent successfully")
    (fun error => console_error "Failed to send Telegram message:").

End Notifier.

(* ===================================================================== *)
(** ** Express routing                                                   *)
(* ===================================================================== *)

(** [app.METHOD(path, handler)].  Paths are compared as written (Express
    also accepts another letter case and a trailing slash). *)
Record route : Type := {
  route_method : string;
  route_path : string;
  handler : value -> M response
}.

(** A route answers its own method, and a GET route also answers HEAD. *)
Definition handles (r : route) (method path : string) : bool :=
  ((method =? route_method r)
   || ((method =? "HEAD") && (route_method r =? "GET")))
  && (path =? route_path r).

(** The first route that handles the request answers it; [fallback] is the
    final [app.use("*", ...)]. *)
Fixpoint dispatch (routes : list route) (fallback : value -> M response)
    (method path : string) (body : value) : M response :=
  match routes with
  | [] => fallback body
  | r :: rest =>
      if handles r method path then handler r body
      else dispatch rest fallback method path body
  end.

(** The response bodies, the same literals in both files. *)
Definition ok_response : response :=
  {| status := 200; json := VObj [("success", VBool true)] |}.

Definition internal_error_response : response :=
  {| status := 500; json := VObj [("error", VStr "Internal server error")] |}.

Definition invalid_payload_response : response :=
  {| status := 400; json := VObj [("error", VStr "Invalid payload")] |}.

Definition not_found_response : response :=
  {| status := 404; json := VObj [("error", VStr "Endpoint not found")] |}.

Definition method_not_allowed_response : response :=
  {| status := 405;
     json := VObj [("error", VStr "Method Not Allowed");
                   ("message", VStr "This endpoint only accepts POST requests")] |}.

Definition root_response : response :=
  {| status := 200;
     json := VObj [("message", VStr "Railway to Telegram Webhook Service");
                   ("endpoints", VObj [("webhook", VStr "POST /webhook");
                                       ("health", VStr "GET /health")])] |}.

Definition health_response (w : world) : response :=
  {| status := 200;
     json := VObj [("status", VStr "healthy");
                   ("timestamp", VStr (now_iso w));
                   ("uptime", VNum (uptime w))] |}.

(** [const projectId = data.project?.id; const buttonUrl = projectId ? ... :
    ...], the same two statements in both handlers. *)
Definition buttonUrl (data : value) : result string :=
  project <- member data "project" ;;
  let projectId := opt_member project "id" in
  if truthy projectId
  then id <- to_string projectId ;;
       ret ("https://railway.app/project/" ++ id ++ "/deployments")
  else ret "https://railway.app".

(* ===================================================================== *)
(** ** src/unnamed/part_000                                              *)
(* ===================================================================== *)

Module Part000.

Definition statusEmojis : list (string * string) :=
  [ ("SUCCESS", "✅");
    ("BUILDING", "⚒️");
    ("DEPLOYING", "🚀");
    ("CRASHED", "❌");
    ("FAILED", "💥");
    ("QUEUED", "⏳");
    ("REMOVED", "🗑️");
    ("SKIPPED", "⏭️") ].

Definition default_glyph : string := "ℹ️".

Definition title_line : string := "<b>🚂 Railway Deployment</b>".

Definition project_line (projectName : string) : string :=
  "<b>Project:</b> <code>" ++ projectName ++ "</code>".

Definition status_line (emoji status : string) : string :=
  emoji ++ " <b>Status:</b> <code>" ++ status ++ "</code>".

Definition environment_line (environment : string) : string :=
  "🌳 <b>Environment:</b> <code>" ++ environment ++ "</code>".

Definition creator_line (creator : string) : string :=
  "👨‍💻 <b>Creator:</b> <code>" ++ creator ++ "</code>".

Definition deployment_id_line (deploymentId : string) : string :=
  "🆔 <b>Deployment ID:</b> <code>" ++ deploymentId ++ "</code>".

Definition time_line (timestamp : string) : string :=
  "🕐 <b>Time:</b> <code>" ++ timestamp ++ "</code>".

Section Server.

Variable w : world.

Definition formatDeploymentMessage (data : value) : result string :=
  status <- member data "status" ;;
  key <- to_string status ;;
  let emoji := slot_or (lookup statusEmojis key) default_glyph in
  project <- member data "project" ;;
  let projectName := or_else (opt_member project "name") (VStr "Unknown Project") in
  env <- member data "environment" ;;
  let environment := or_else (opt_member env "name") (VStr "Unknown Environment") in
  deployment <- member data "deployment" ;;
  let creator :=
    or_else (opt_member (opt_member deployment "creator") "name")
            (VStr "Unknown Creator") in
  deployment' <- member data "deployment" ;;
  let deploymentId := or_else (opt_member deployment' "id") (VStr "Unknown") in
  let timestamp := now_local w in
  p <- to_string projectName ;;
  let g := slot_text emoji in
  status' <- member data "status" ;;
  s <- to_string status' ;;
  e <- to_string environment ;;
  c <- to_string creator ;;
  i <- to_string deploymentId ;;
  ret (unlines [title_line; ""; project_line p; status_line g s;
                environment_line e; creator_line c; deployment_id_line i;
                time_line timestamp]).

(** [!data || !data.type]. *)
Definition missing_type (data : value) : M bool :=
  if negb (truthy data) then ret true
  else ty <- lift (member data "type") ;; ret (negb (truthy ty)).

(** [app.post("/webhook", ...)]. *)
Definition webhook (body : value) : M response :=
  try_catch
    (let data := body in
     console_log "Received webhook:" ;;;
     invalid <- missing_type data ;;
     if (invalid : bool) then
       console_log "Invalid webhook payload - missing type" ;;;
       ret invalid_payload_response
     else
       ty <- lift (member data "type") ;;
       (if is_string "DEPLOY" ty then
          message <- lift (formatDeploymentMessage data) ;;
          url <- lift (buttonUrl data) ;;
          sendMessage w (VStr message) (VStr "View Project") (VStr url)
        else if is_string "SERVICE" ty then
          console_log "Service event received:"
        else
          console_log "Unhandled event type:") ;;;
       ret ok_response)
    (fun error =>
       console_error "Webhook processing error:" ;;;
       ret internal_error_response).

Definition routes : list route :=
  [ {| route_method := "POST"; route_path := "/webhook"; handler := webhook |};
    {| route_method := "GET"; route_path := "/health";
       handler := fun _ => ret (health_response w) |};
    {| route_method := "GET"; route_path := "/";
       handler := fun _ => ret root_response |};
    {| route_method := "GET"; route_path := "/webhook";
       handler := fun _ => ret method_not_allowed_response |} ].

(** The whole application: logging middleware, routes, 404 handler. *)
Definition app (method path : string) (body : value) : M response :=
  request_logger w method path ;;;
  dispatch routes (fun _ => ret not_found_response) method path body.

End Server.

End Part000.

(* ===================================================================== *)
(** ** src/index.js                                                      *)
(* ===================================================================== *)

Module Index.

Definition statusEmojis : list (string * string) :=
  [ ("SUCCESS", "âœ…");
    ("BUILDING", "âš’ï¸");
    ("DEPLOYING", "ğŸš€");
    ("CRASHED", "âŒ");
    ("FAILED", "ğŸ’¥");
    ("QUEUED", "â³");
    ("REMOVED", "ğŸ—‘ï¸");
    ("REMOVING", "ğŸ”„");
    ("SKIPPED", "â­ï¸");
    ("INITIALIZED", "ğŸ¯");
    ("WAITING", "â¸ï¸");
    ("SLEEPING", "ğŸ˜´");
    ("AWAITING_APPROVAL", "â°") ].

Definition default_glyph : string := "â„¹ï¸".

Definition title_line : string := "<b>ğŸš‚ Railway Deployment</b>".

Definition project_line (projectName : string) : string :=
  "<b>Project:</b> <code>" ++ projectName ++ "</code>".

Definition status_line (emoji status : string) : string :=
  emoji ++ " <b>Status:</b> <code>" ++ status ++ "</code>".

Definition environment_line (environment : string) : string :=
  "ğŸŒ³ <b>Environment:</b> <code>" ++ environment ++ "</code>".

Definition creator_line (creator : string) : string :=
  "ğŸ‘¨â€ğŸ’» <b>Creator:</b> <code>" ++ creator ++ "</code>".

Definition time_line (timestamp : string) : string :=
  "ğŸ• <b>Time:</b> <code>" ++ timestamp ++ "</code>".

Section Server.

Variable w : world.

(** [const emoji = statusEmojis[data.status] || ...]. *)
Definition emoji (data : value) : result slot :=
  status <- member data "status" ;;
  key <- to_string status ;;
  ret (slot_or (lookup statusEmojis key) default_glyph).

(** [const message = `...`], its substitutions evaluated left to right. *)
Definition message (data : value) (emoji : slot) : result string :=
  project <- member data "project" ;;
  p <- to_string (or_else (opt_member project "name") (VStr "Unknown")) ;;
  let g := slot_text emoji in
  status <- member data "status" ;;
  s <- to_string status ;;
  env <- member data "environment" ;;
  e <- to_string (or_else (opt_member env "name") (VStr "Unknown")) ;;
  deployment <- member data "deployment" ;;
  c <- to_string (or_else (opt_member (opt_member deployment "creator") "name")
                          (VStr "Unknown")) ;;
  let timestamp := now_local w in
  ret (unlines [title_line; ""; project_line p; status_line g s;
                environment_line e; creator_line c; time_line timestamp]).

(** [app.post("/webhook", ...)]. *)
Definition webhook (body : value) : M response :=
  try_catch
    (let data := body in
     console_log "Received webhook:" ;;;
     ty <- lift (member data "type") ;;
     (if is_string "DEPLOY" ty then
        emoji <- lift (emoji data) ;;
        message <- lift (message data emoji) ;;
        url <- lift (buttonUrl data) ;;
        sendMessage w (VStr message) (VStr "View Project") (VStr url)
      else ret tt) ;;;
     ret ok_response)
    (fun error =>
       console_error "Webhook processing error:" ;;;
       ret internal_error_response).

Definition routes : list route :=
  [ {| route_method := "POST"; route_path := "/webhook"; handler := webhook |};
    {| route_method := "GET"; route_path := "/health";
       handler := fun _ => ret (health_response w) |};
    {| route_method := "GET"; route_path := "/";
       handler := fun _ => ret root_response |} ].

Definition app (method path : string) (body : value) : M response :=
  request_logger w method path ;;;
  dispatch routes (fun _ => ret not_found_response) method path body.

End Server.

End Index.

(* ===================================================================== *)
(** ** The DeploymentEvent of the data model, as the handlers read it    *)
(* ===================================================================== *)

Definition f_type (data : value) : value := own "type" data.
Definition f_status (data : value) : value := own "status" data.
Definition f_project_name (data : value) : value :=
  opt_member (own "project" data) "name".
Definition f_project_id (data : value) : value :=
  opt_member (own "project" data) "id".
Definition f_environment_name (data : value) : value :=
  opt_member (own "environment" data) "name".
Definition f_creator_name (data : value) : value :=
  opt_member (opt_member (own "deployment" data) "creator") "name".
Definition f_deployment_id (data : value) : value :=
  opt_member (own "deployment" data) "id".

(** An optional string: absent, or a string. *)
Definition text_or_absent (v : value) : bool :=
  match v with
  | VUndefined | VStr _ => true
  | _ => false
  end.

(** A value that has a string conversion. *)
Definition printable (v : value) : bool :=
  match to_string v with
  | Ok _ => true
  | Throw _ => false
  end.

(** A body whose event fields are optional strings. *)
Definition deployment_event (data : value) : bool :=
  text_or_absent (f_status data)
  && text_or_absent (f_project_name data)
  && text_or_absent (f_project_id data)
  && text_or_absent (f_environment_name data)
  && text_or_absent (f_creator_name data)
  && text_or_absent (f_deployment_id data).

(** A DEPLOY payload: the tag is ["DEPLOY"], the fields optional strings. *)
Definition deploy_payload (data : value) : bool :=
  is_string "DEPLOY" (f_type data) && deployment_event data.

(** The text an optional string gives under [v || placeholder]. *)
Definition shown (placeholder : string) (v : value) : string :=
  match v with
  | VStr s => if s =? "" then placeholder else s
  | _ => placeholder
  end.

(** The text an optional string gives when spliced as it is. *)
Definition spliced (v : value) : string :=
  match v with
  | VStr s => s
  | _ => "undefined"
  end.

(** The glyph text chosen for an optional-string status. *)
Definition glyph (table : list (string * string)) (fallback : string)
    (status : value) : string :=
  slot_text (slot_or (lookup table (spliced status)) fallback).

(** Projections of the Telegram calls of a run. *)
Definition texts (tr : list event) : list value :=
  map (fun c => snd (fst c)) (outbound tr).

Definition buttons (tr : list event) : list (option (value * value)) :=
  map (fun c => reply_markup (snd c)) (outbound tr).

Definition destinations (tr : list event) : list (string * options) :=
  map (fun c => (fst (fst c), snd c)) (outbound tr).

(** [message] shows [value] on the line labelled [label]. *)
Definition renders (label value message : string) : bool :=
  includes (label ++ "</b> <code>" ++ value ++ "</code>") message.

(** The options [sendMessage] builds for a button label and target. *)
Definition keyboard (buttonText buttonUrl : value) : options :=
  {| parse_mode := "HTML";
     disable_web_page_preview := true;
     reply_markup :=
       if truthy (default_null buttonText) && truthy (default_null buttonUrl)
       then Some (default_null buttonText, default_null buttonUrl)
       else None |}.

(** The console line that ends a delivery attempt. *)
Definition delivery_report (w : world) (message : value) (opts : options) : event :=
  match telegram w (TELEGRAM_CHAT_ID w) message opts with
  | None => ConsoleLog "Message sent successfully"
  | Some _ => ConsoleError "Failed to send Telegram message:"
  end.

(** The button target for an optional-string project id. *)
Definition target (id : value) : string :=
  if truthy id
  then "https://railway.app/project/" ++ spliced id ++ "/deployments"
  else "https://railway.app".

(** The run of a handler that reaches [sendMessage] with [message] and the
    button target [url]. *)
Definition attempt (w : world) (message url : string) : M response :=
  let opts := keyboard (VStr "View Project") (VStr url) in
  ([ConsoleLog "Received webhook:";
    TelegramSend (TELEGRAM_CHAT_ID w) (VStr message) opts;
    delivery_report w (VStr message) opts],
   Ok ok_response).

(** The run of a handler that delivers [message] for the event [data]. *)
Definition delivery (w : world) (data : value) (message : string) : M response :=
  attempt w message (target (f_project_id data)).

(** The run of a handler whose [try] block throws before the delivery. *)
Definition failed_run : M response :=
  ([ConsoleLog "Received webhook:"; ConsoleError "Webhook processing error:"],
   Ok internal_error_response).

Definition part000_text (w : world) (data : value) : string :=
  unlines
    [Part000.title_line; "";
     Part000.project_line (shown "Unknown Project" (f_project_name data));
     Part000.status_line
       (glyph Part000.statusEmojis Part000.default_glyph (f_status data))
       (spliced (f_status data));
     Part000.environment_line (shown "Unknown Environment" (f_environment_name data));
     Part000.creator_line (shown "Unknown Creator" (f_creator_name data));
     Part000.deployment_id_line (shown "Unknown" (f_deployment_id data));
     Part000.time_line (now_local w)].

Definition index_text (w : world) (data : value) : string :=
  unlines
    [Index.title_line; "";
     Index.project_line (shown "Unknown" (f_project_name data));
     Index.status_line
       (glyph Index.statusEmojis Index.default_glyph (f_status data))
       (spliced (f_status data));
     Index.environment_line (shown "Unknown" (f_environment_name data));
     Index.creator_line (shown "Unknown" (f_creator_name data));
     Index.time_line (now_local w)].

(* ===================================================================== *)
(** ** Sample worlds and requests                                        *)
(* ===================================================================== *)

Definition world_with (send : option string) : world :=
  {| TELEGRAM_CHAT_ID := "-1001234567890";
     telegram := fun _ _ _ => send;
     logged_at := "2026-03-01T09:30:00.000Z";
     now_local := "3/1/2026, 9:30:00 AM";
     now_iso := "2026-03-01T09:30:00.000Z";
     uptime := "42.5" |}.

Definition delivering : world := world_with None.
Definition failing : world := world_with (Some "ETIMEDOUT").

(** The example of the specification's section 8. *)
Definition example_event : value :=
  VObj [("type", VStr "DEPLOY");
        ("status", VStr "SUCCESS");
        ("project", VObj [("name", VStr "api"); ("id", VStr "p1")]);
        ("environment", VObj [("name", VStr "prod")]);
        ("deployment", VObj [("id", VStr "d1");
                             ("creator", VObj [("name", VStr "alice")])])].

Definition bare_deploy : value := VObj [("type", VStr "DEPLOY")].

Definition inherited_status : value :=
  VObj [("type", VStr "DEPLOY"); ("status", VStr "constructor")].

Definition unprintable_status : value :=
  VObj [("type", VStr "DEPLOY"); ("status", VObj [("toString", VNum "1")])].

Definition unprintable_deployment_id : value :=
  VObj [("type", VStr "DEPLOY");
        ("deployment", VObj [("id", VObj [("toString", VNum "1")])])].

Definition service_event : value :=
  VObj [("type", VStr "SERVICE"); ("status", VStr "SUCCESS")].

Definition empty_body : value := VObj [].

(* ===================================================================== *)
(** ** Lines 12-25 of both files: configuration at start-up              *)
(* ===================================================================== *)

Module Startup.

Definition requiredEnvVars : list string :=
  ["TELEGRAM_BOT_TOKEN"; "TELEGRAM_CHAT_ID"].

(** [process.env[name]]: [undefined] for a variable that is not set, its
    text otherwise.  The environment is the list of the variables set once
    [dotenv] has run, looked up from the head. *)
Definition env_get (env : list (string * string)) (name : string) : value :=
  match assoc name env with
  | Some text => VStr text
  | None => VUndefined
  end.

(** [requiredEnvVars.filter(envVar => !process.env[envVar])]. *)
Definition missingEnvVars (env : list (string * string)) : list string :=
  filter (fun envVar => negb (truthy (env_get env envVar))) requiredEnvVars.

(** The module-level constants derived from the environment. *)
Record config : Type := {
  token : value;              (* the argument of [new Telegraf(...)] *)
  TELEGRAM_CHAT_ID : value;
  PORT : value
}.

(** The module either throws while it loads, or goes on to [app.listen]. *)
Inductive boot : Type :=
| Fatal (message : string)
| Configured (c : config).

Definition startup (env : list (string * string)) : boot :=
  let missingEnvVars := missingEnvVars env in
  if Nat.ltb 0 (List.length missingEnvVars)
  then Fatal ("Missing required environment variables: "
              ++ String.concat ", " missingEnvVars)
  else Configured
         {| token := env_get env "TELEGRAM_BOT_TOKEN";
            TELEGRAM_CHAT_ID := env_get env "TELEGRAM_CHAT_ID";
            PORT := or_else (env_get env "PORT") (VNum "5000") |}.

End Startup.

(* ===================================================================== *)
(** ** The middleware chain around the routes                            *)
(* ===================================================================== *)




(** The line of the request logger. *)
Definition logged (w : world) (method path : string) : event :=
  ConsoleLog (logged_at w ++ " - " ++ method ++ " " ++ path).

(** The route that answers a request in [src/unnamed/part_000], after the
    request logger. *)
Definition part000_routed (w : world) (method path : string) (body : value)
    : M response :=
  if (method =? "POST") && (path =? "/webhook") then Part000.webhook w body
  else if (method =? "GET") || (method =? "HEAD") then
    if path =? "/health" then ret (health_response w)
    else if path =? "/" then ret root_response
    else if path =? "/webhook" then ret method_not_allowed_response
    else ret not_found_response
  else ret not_found_response.

(** The route that answers a request in [src/index.js]. *)
Definition index_routed (w : world) (method path : string) (body : value)
    : M response :=
  if (method =? "POST") && (path =? "/webhook") then Index.webhook w body
  else if (method =? "GET") || (method =? "HEAD") then
    if path =? "/health" then ret (health_response w)
    else if path =? "/" then ret root_response
    else ret not_found_response
  else ret not_found_response.

(** Sample environments. *)
Definition complete_env : list (string * string) :=
  [("TELEGRAM_BOT_TOKEN", "123456:ABC"); ("TELEGRAM_CHAT_ID", "-1001234567890")].

Definition env_without_chat : list (string * string) :=
  [("TELEGRAM_BOT_TOKEN", "123456:ABC"); ("TELEGRAM_CHAT_ID", "")].

(* ===================================================================== *)
(** ** Strings                                                           *)
(* ===================================================================== *)

Lemma prefix_refl (s : string) : prefix s s = true.
Proof.
  induction s as [|a s IH]; simpl; [reflexivity|].
  destruct (ascii_dec a a) as [_|n]; [exact IH | now elim n].
Qed.

Lemma prefix_app_l (p a b : string) :
  prefix p a = true -> prefix p (a ++ b) = true.
Proof.
  revert a. induction p as [|c p IH]; intros a H.
  - now destruct (a ++ b).
  - destruct a as [|c' a]; simpl in *; [discriminate|].
    destruct (ascii_dec c c'); [now apply IH | discriminate].
Qed.

Lemma includes_unfold (needle hay : string) :
  includes needle hay =
  prefix needle hay
  || match hay with
     | EmptyString => false
     | String _ rest => includes needle rest
     end.
Proof. destruct hay; reflexivity. Qed.

Lemma includes_self (s : string) : includes s s = true.
Proof. rewrite includes_unfold, prefix_refl. reflexivity. Qed.

Lemma includes_strip (c : ascii) (needle s : string) :
  includes needle s = true -> includes needle (String c s) = true.
Proof. intros H. simpl. rewrite H. apply orb_true_r. Qed.

Lemma includes_skip (needle a b : string) :
  includes needle b = true -> includes needle (a ++ b) = true.
Proof.
  intros H. induction a as [|c a IH]; [exact H|].
  now apply includes_strip.
Qed.

Lemma includes_app_l (needle a b : string) :
  includes needle a = true -> includes needle (a ++ b) = true.
Proof.
  induction a as [|c a IH]; intros H; rewrite includes_unfold in H;
    apply orb_true_iff in H; destruct H as [H|H].
  - rewrite includes_unfold, (prefix_app_l _ _ _ H). reflexivity.
  - discriminate.
  - rewrite includes_unfold, (prefix_app_l _ _ _ H). reflexivity.
  - simpl. rewrite (IH H). apply orb_true_r.
Qed.

Lemma includes_here (needle rest : string) :
  includes needle (needle ++ rest) = true.
Proof. apply includes_app_l, includes_self. Qed.

Lemma includes_line (needle line : string) (lines : list string) :
  In line lines ->
  includes needle line = true ->
  includes needle (unlines lines) = true.
Proof.
  intros Hin Hline. induction lines as [|x rest IH]; [contradiction|].
  destruct rest as [|y rest].
  - destruct Hin as [->|[]]. exact Hline.
  - change (unlines (x :: y :: rest)) with (x ++ newline ++ unlines (y :: rest)).
    destruct Hin as [->|Hin].
    + now apply includes_app_l.
    + now apply includes_skip, includes_skip, IH.
Qed.

(* ===================================================================== *)
(** ** Reading an event                                                  *)
(* ===================================================================== *)

Lemma tag_is_object (data : value) :
  truthy (f_type data) = true -> exists props, data = VObj props.
Proof. destruct data; simpl; try discriminate; eauto. Qed.

Lemma deploy_tag_truthy (data : value) :
  is_string "DEPLOY" (f_type data) = true -> truthy (f_type data) = true.
Proof.
  destruct (f_type data); simpl; try discriminate.
  intros H. apply String.eqb_eq in H. now subst.
Qed.

Lemma deploy_payload_inv (data : value) :
  deploy_payload data = true ->
  exists props,
    data = VObj props
    /\ is_string "DEPLOY" (f_type (VObj props)) = true
    /\ deployment_event (VObj props) = true.
Proof.
  intros H. apply andb_true_iff in H. destruct H as [Htag Hev].
  destruct (tag_is_object data (deploy_tag_truthy data Htag)) as [props ->].
  eauto.
Qed.

Lemma member_object (props : list (string * value)) (k : string) :
  member (VObj props) k = Ok (own k (VObj props)).
Proof. reflexivity. Qed.

Lemma to_string_shown (placeholder : string) (v : value) :
  text_or_absent v = true ->
  to_string (or_else v (VStr placeholder)) = Ok (shown placeholder v).
Proof.
  intros Hv. destruct v; try discriminate; unfold or_else; simpl.
  - reflexivity.
  - destruct (s =? ""); reflexivity.
Qed.

Lemma to_string_spliced (v : value) :
  text_or_absent v = true -> to_string v = Ok (spliced v).
Proof. destruct v; try discriminate; reflexivity. Qed.

Lemma to_string_or_else (v : value) (placeholder : string) :
  to_string (or_else v (VStr placeholder)) =
  if truthy v then to_string v else Ok placeholder.
Proof. unfold or_else. now destruct (truthy v). Qed.

Lemma shown_falsy (placeholder : string) (v : value) :
  text_or_absent v = true -> truthy v = false -> shown placeholder v = placeholder.
Proof.
  destruct v; try discriminate; simpl; [reflexivity|].
  intros _ H. now destruct (s =? "").
Qed.

Ltac split_event H :=
  unfold deployment_event in H;
  repeat (let H' := fresh "Hf" in
          apply andb_true_iff in H; destruct H as [H H']).

Ltac fold_fields data :=
  fold (f_status data); fold (f_project_name data); fold (f_project_id data);
  fold (f_environment_name data); fold (f_creator_name data);
  fold (f_deployment_id data).

Ltac run_monad := cbn [bind ret result_Monad M_Monad app].

Ltac field_cases v :=
  destruct (truthy v);
  [destruct (to_string v); [|exact I]|].

Section Formatting.

Variable w : world.
Variable props : list (string * value).
Hypothesis is_event : deployment_event (VObj props) = true.

Lemma part000_format :
  Part000.formatDeploymentMessage w (VObj props) =
  Ok (part000_text w (VObj props)).
Proof.
  pose proof is_event as H. split_event H.
  unfold Part000.formatDeploymentMessage.
  rewrite !member_object. run_monad. fold_fields (VObj props).
  rewrite (to_string_spliced _ H), !to_string_shown by assumption.
  reflexivity.
Qed.

Lemma index_emoji :
  Index.emoji (VObj props) =
  Ok (slot_or (lookup Index.statusEmojis (spliced (f_status (VObj props))))
              Index.default_glyph).
Proof.
  pose proof is_event as H. split_event H.
  unfold Index.emoji. rewrite member_object. run_monad.
  fold_fields (VObj props).
  now rewrite (to_string_spliced _ H).
Qed.

Lemma index_message :
  Index.message w (VObj props)
    (slot_or (lookup Index.statusEmojis (spliced (f_status (VObj props))))
             Index.default_glyph) =
  Ok (index_text w (VObj props)).
Proof.
  pose proof is_event as H. split_event H.
  unfold Index.message.
  rewrite !member_object. run_monad. fold_fields (VObj props).
  rewrite (to_string_spliced _ H), !to_string_shown by assumption.
  reflexivity.
Qed.

Lemma index_format :
  (e <- Index.emoji (VObj props) ;; Index.message w (VObj props) e) =
  Ok (index_text w (VObj props)).
Proof. rewrite index_emoji. run_monad. apply index_message. Qed.

Lemma buttonUrl_event :
  buttonUrl (VObj props) = Ok (target (f_project_id (VObj props))).
Proof.
  pose proof is_event as H. split_event H.
  unfold buttonUrl, target. rewrite member_object. run_monad.
  fold_fields (VObj props).
  destruct (truthy (f_project_id (VObj props))); [|reflexivity].
  now rewrite to_string_spliced.
Qed.

End Formatting.

Lemma part000_formatting (w : world) (data : value) :
  deploy_payload data = true ->
  Part000.formatDeploymentMessage w data = Ok (part000_text w data).
Proof.
  intros H. destruct (deploy_payload_inv _ H) as [props [-> [_ Hev]]].
  now apply part000_format.
Qed.

Lemma index_formatting (w : world) (data : value) :
  deploy_payload data = true ->
  (e <- Index.emoji data ;; Index.message w data e) = Ok (index_text w data).
Proof.
  intros H. destruct (deploy_payload_inv _ H) as [props [-> [_ Hev]]].
  now apply index_format.
Qed.

(* ===================================================================== *)
(** ** The Notifier                                                      *)
(* ===================================================================== *)

Ltac telegram_cases :=
  match goal with
  | |- context [telegram ?w ?c ?m ?o] => destruct (telegram w c m o) eqn:?
  end.

Lemma sendMessage_run (w : world) (message buttonText buttonUrl : value) :
  sendMessage w message buttonText buttonUrl =
  ([TelegramSend (TELEGRAM_CHAT_ID w) message (keyboard buttonText buttonUrl);
    delivery_report w message (keyboard buttonText buttonUrl)],
   Ok tt).
Proof.
  unfold sendMessage, keyboard, delivery_report, telegram_sendMessage.
  destruct (truthy (default_null buttonText) && truthy (default_null buttonUrl));
    cbn -[truthy default_null]; telegram_cases; reflexivity.
Qed.

Lemma keyboard_button (url : string) :
  url <> "" ->
  reply_markup (keyboard (VStr "View Project") (VStr url)) =
  Some (VStr "View Project", VStr url).
Proof.
  intros H. unfold keyboard. cbn.
  destruct (url =? "") eqn:E; [apply String.eqb_eq in E; contradiction|].
  reflexivity.
Qed.

Lemma buttonUrl_cases (data : value) (url : string) :
  buttonUrl data = Ok url ->
  (forall id : string,
      f_project_id data = VStr id -> id <> "" ->
      url = "https://railway.app/project/" ++ id ++ "/deployments")
  /\ (truthy (f_project_id data) = false ->
      url = "https://railway.app").
Proof.
  unfold buttonUrl, f_project_id.
  destruct data as [| |b|t|s|items|props]; try discriminate;
    cbn [member]; run_monad; intros H;
    (split;
     [ intros id Hid Hne; rewrite Hid in H; cbn [truthy] in H;
       destruct (id =? "") eqn:E; [apply String.eqb_eq in E; contradiction|];
       cbn in H; now injection H as <-
     | intros Hfalsy; rewrite Hfalsy in H; now injection H as <- ]).
Qed.

Lemma buttonUrl_nonempty (data : value) (url : string) :
  buttonUrl data = Ok url -> url <> "".
Proof.
  unfold buttonUrl. destruct (member data "project") as [project|e];
    run_monad; [|discriminate].
  destruct (truthy (opt_member project "id")).
  - destruct (to_string (opt_member project "id")); run_monad;
      [|discriminate].
    intros H. injection H as <-. discriminate.
  - intros H. injection H as <-. discriminate.
Qed.

(* ===================================================================== *)
(** ** Runs of the two webhook handlers                                  *)
(* ===================================================================== *)

Section Runs.

Variable w : world.

Lemma attempt_outbound (message url : string) :
  outbound (trace (attempt w message url)) =
  [(TELEGRAM_CHAT_ID w, VStr message,
    keyboard (VStr "View Project") (VStr url))].
Proof.
  unfold attempt, trace, outbound, delivery_report. cbn [fst flat_map app].
  telegram_cases; reflexivity.
Qed.

Lemma attempt_failing (message url : string) :
  (forall chat text opts, telegram w chat text opts <> None) ->
  last (trace (attempt w message url)) (ConsoleLog "") =
  ConsoleError "Failed to send Telegram message:".
Proof.
  intros Hfail. unfold attempt, trace, delivery_report. cbn [fst last].
  telegram_cases; [reflexivity|].
  match goal with H : telegram _ _ _ _ = None |- _ => now apply Hfail in H end.
Qed.

Lemma attempt_call (message url : string) (call : string * value * options) :
  url <> "" ->
  In call (outbound (trace (attempt w message url))) ->
  reply_markup (snd call) = Some (VStr "View Project", VStr url).
Proof.
  intros Hne. rewrite attempt_outbound. intros [<-|[]].
  cbn [snd]. now apply keyboard_button.
Qed.

Lemma delivery_outbound (data : value) (message : string) :
  outbound (trace (delivery w data message)) =
  [(TELEGRAM_CHAT_ID w, VStr message,
    keyboard (VStr "View Project") (VStr (target (f_project_id data))))].
Proof. apply attempt_outbound. Qed.

Lemma delivery_texts (data : value) (message : string) :
  texts (trace (delivery w data message)) = [VStr message].
Proof. unfold texts. now rewrite delivery_outbound. Qed.

Lemma delivery_buttons (data : value) (message : string) :
  buttons (trace (delivery w data message)) =
  [Some (VStr "View Project", VStr (target (f_project_id data)))].
Proof.
  unfold buttons. rewrite delivery_outbound. cbn [map snd].
  rewrite keyboard_button; [reflexivity|].
  unfold target. destruct (truthy (f_project_id data)); discriminate.
Qed.

(** The DEPLOY branch of [src/unnamed/part_000]. *)
Lemma part000_deploy_cases (props : list (string * value)) :
  is_string "DEPLOY" (f_type (VObj props)) = true ->
  Part000.webhook w (VObj props) =
  match Part000.formatDeploymentMessage w (VObj props) with
  | Ok message =>
      match buttonUrl (VObj props) with
      | Ok url => attempt w message url
      | Throw _ => failed_run
      end
  | Throw _ => failed_run
  end.
Proof.
  intros Htag. pose proof (deploy_tag_truthy _ Htag) as Ht.
  unfold f_type in Htag, Ht.
  unfold Part000.webhook, Part000.missing_type.
  rewrite !member_object.
  unfold lift. cbn [truthy negb]. run_monad.
  rewrite Ht. cbn [negb]. run_monad. rewrite Htag.
  destruct (Part000.formatDeploymentMessage w (VObj props)) as [message|e];
    [|reflexivity].
  destruct (buttonUrl (VObj props)) as [url|e]; [|reflexivity].
  run_monad. rewrite sendMessage_run. reflexivity.
Qed.

(** The DEPLOY branch of [src/index.js]. *)
Lemma index_deploy_cases (props : list (string * value)) :
  is_string "DEPLOY" (f_type (VObj props)) = true ->
  Index.webhook w (VObj props) =
  match (e <- Index.emoji (VObj props) ;; Index.message w (VObj props) e) with
  | Ok message =>
      match buttonUrl (VObj props) with
      | Ok url => attempt w message url
      | Throw _ => failed_run
      end
  | Throw _ => failed_run
  end.
Proof.
  intros Htag. unfold f_type in Htag.
  unfold Index.webhook. rewrite !member_object.
  unfold lift. run_monad. rewrite Htag.
  destruct (Index.emoji (VObj props)) as [e|x]; [|reflexivity].
  run_monad.
  destruct (Index.message w (VObj props) e) as [message|x]; [|reflexivity].
  destruct (buttonUrl (VObj props)) as [url|x]; [|reflexivity].
  run_monad. rewrite sendMessage_run. reflexivity.
Qed.

Lemma part000_deploy_run (data : value) :
  deploy_payload data = true ->
  Part000.webhook w data = delivery w data (part000_text w data).
Proof.
  intros H. destruct (deploy_payload_inv _ H) as [props [-> [Htag Hev]]].
  now rewrite part000_deploy_cases, part000_format, buttonUrl_event.
Qed.

Lemma index_deploy_run (data : value) :
  deploy_payload data = true ->
  Index.webhook w data = delivery w data (index_text w data).
Proof.
  intros H. destruct (deploy_payload_inv _ H) as [props [-> [Htag Hev]]].
  now rewrite index_deploy_cases, index_format, buttonUrl_event.
Qed.

(** The validation step of [src/unnamed/part_000]. *)
Lemma part000_invalid_run (body : value) :
  truthy (f_type body) = false ->
  Part000.webhook w body =
  ([ConsoleLog "Received webhook:";
    ConsoleLog "Invalid webhook payload - missing type"],
   Ok invalid_payload_response).
Proof.
  intros H. unfold Part000.webhook, Part000.missing_type, f_type in *.
  destruct body as [| |b|t|s|items|props]; try reflexivity.
  - destruct b; reflexivity.
  - cbn [truthy]. destruct (negb (t =? "0") && negb (t =? "NaN")); reflexivity.
  - cbn [truthy]. destruct (negb (s =? "")); reflexivity.
  - rewrite member_object. unfold lift.
    cbn [truthy negb]. run_monad. rewrite H. reflexivity.
Qed.

(** The SERVICE and default branches of [src/unnamed/part_000]. *)
Lemma part000_other_run (body : value) :
  truthy (f_type body) = true ->
  is_string "DEPLOY" (f_type body) = false ->
  Part000.webhook w body =
  ([ConsoleLog "Received webhook:";
    ConsoleLog (if is_string "SERVICE" (f_type body)
                then "Service event received:"
                else "Unhandled event type:")],
   Ok ok_response).
Proof.
  intros Ht Htag. destruct (tag_is_object body Ht) as [props ->].
  unfold f_type in *.
  unfold Part000.webhook, Part000.missing_type.
  rewrite !member_object.
  unfold lift. cbn [truthy negb]. run_monad.
  rewrite Ht. cbn [negb]. run_monad. rewrite Htag.
  destruct (is_string "SERVICE" (own "type" (VObj props))); reflexivity.
Qed.

(** [src/index.js] on a body that is not tagged DEPLOY. *)
Lemma index_other_run (body : value) :
  is_string "DEPLOY" (f_type body) = false ->
  Index.webhook w body =
  match body with
  | VUndefined | VNull => failed_run
  | _ => ([ConsoleLog "Received webhook:"], Ok ok_response)
  end.
Proof.
  intros Htag. destruct body as [| |b|t|s|items|props]; try reflexivity.
  unfold f_type in Htag.
  unfold Index.webhook. rewrite member_object.
  unfold lift. run_monad. rewrite Htag. reflexivity.
Qed.

(** A handler that calls the Telegram client has reached [sendMessage],
    with the button target computed by [buttonUrl]. *)
Lemma part000_attempts (body : value) :
  outbound (trace (Part000.webhook w body)) <> [] ->
  exists props message url,
    body = VObj props
    /\ buttonUrl (VObj props) = Ok url
    /\ Part000.webhook w body = attempt w message url.
Proof.
  destruct (truthy (f_type body)) eqn:Ht.
  - destruct (is_string "DEPLOY" (f_type body)) eqn:Htag.
    + destruct (tag_is_object body Ht) as [props ->].
      rewrite part000_deploy_cases by assumption.
      destruct (Part000.formatDeploymentMessage w (VObj props)) as [message|e];
        [|intros H; now elim H].
      destruct (buttonUrl (VObj props)) as [url|e] eqn:Hu;
        [|intros H; now elim H].
      intros _. exists props, message, url. auto.
    + rewrite part000_other_run by assumption. intros H. now elim H.
  - rewrite part000_invalid_run by assumption. intros H. now elim H.
Qed.

Lemma index_attempts (body : value) :
  outbound (trace (Index.webhook w body)) <> [] ->
  exists props message url,
    body = VObj props
    /\ buttonUrl (VObj props) = Ok url
    /\ Index.webhook w body = attempt w message url.
Proof.
  destruct (is_string "DEPLOY" (f_type body)) eqn:Htag.
  - destruct (tag_is_object body (deploy_tag_truthy _ Htag)) as [props ->].
    rewrite index_deploy_cases by assumption.
    destruct (e <- Index.emoji (VObj props) ;; Index.message w (VObj props) e)
      as [message|e]; [|intros H; now elim H].
    destruct (buttonUrl (VObj props)) as [url|e] eqn:Hu;
      [|intros H; now elim H].
    intros _. exists props, message, url. auto.
  - rewrite index_other_run by assumption.
    destruct body; intros H; now elim H.
Qed.

(** The two formatters throw on the same events, the Deployment ID apart. *)
Lemma formatters_throw_together (props : list (string * value)) :
  printable (f_deployment_id (VObj props)) = true ->
  match Part000.formatDeploymentMessage w (VObj props),
        (e <- Index.emoji (VObj props) ;; Index.message w (VObj props) e) with
  | Ok _, Ok _ => True
  | Throw _, Throw _ => True
  | _, _ => False
  end.
Proof.
  unfold printable. intros Hid.
  unfold Part000.formatDeploymentMessage, Index.emoji, Index.message.
  rewrite !member_object. run_monad. fold_fields (VObj props).
  rewrite !to_string_or_else.
  destruct (to_string (f_status (VObj props))); [|exact I]. run_monad.
  field_cases (f_project_name (VObj props));
    field_cases (f_environment_name (VObj props));
    field_cases (f_creator_name (VObj props));
    destruct (truthy (f_deployment_id (VObj props))); try exact I;
    destruct (to_string (f_deployment_id (VObj props))); try exact I;
    discriminate.
Qed.

(** No exception leaves a handler: every request is answered. *)
Lemma try_catch_answers {A : Type} (body : M A) (handler : exn -> M A) :
  (forall e, exists a, outcome (handler e) = Ok a) ->
  exists a, outcome (try_catch body handler) = Ok a.
Proof.
  intros Hh. destruct body as [tr [a|e]]; [now exists a|].
  destruct (Hh e) as [a Ha]. exists a.
  unfold try_catch. destruct (handler e) as [tr' r]. exact Ha.
Qed.

Lemma webhooks_always_answer (body : value) :
  (exists r, outcome (Part000.webhook w body) = Ok r)
  /\ (exists r, outcome (Index.webhook w body) = Ok r).
Proof.
  split; apply try_catch_answers; intros e; eexists; reflexivity.
Qed.

End Runs.

(* ===================================================================== *)
(** ** What a message shows                                              *)
(* ===================================================================== *)

(** Finds a needle that ends its line, behind a literal prefix. *)
Ltac at_line_end :=
  cbn [append]; repeat first [apply includes_self | apply includes_strip].

Ltac on_line l :=
  unfold renders, part000_text, index_text;
  apply (includes_line _ l); [simpl; tauto|].

Section Shown.

Variable w : world.
Variable data : value.

Lemma part000_shows_project :
  renders "Project:" (shown "Unknown Project" (f_project_name data))
          (part000_text w data) = true.
Proof.
  on_line (Part000.project_line (shown "Unknown Project" (f_project_name data))).
  unfold Part000.project_line. at_line_end.
Qed.

Lemma part000_shows_status :
  renders "Status:" (spliced (f_status data)) (part000_text w data) = true.
Proof.
  on_line (Part000.status_line
             (glyph Part000.statusEmojis Part000.default_glyph (f_status data))
             (spliced (f_status data))).
  unfold Part000.status_line. apply includes_skip. at_line_end.
Qed.

Lemma part000_shows_environment :
  renders "Environment:" (shown "Unknown Environment" (f_environment_name data))
          (part000_text w data) = true.
Proof.
  on_line (Part000.environment_line
             (shown "Unknown Environment" (f_environment_name data))).
  unfold Part000.environment_line. at_line_end.
Qed.

Lemma part000_shows_creator :
  renders "Creator:" (shown "Unknown Creator" (f_creator_name data))
          (part000_text w data) = true.
Proof.
  on_line (Part000.creator_line (shown "Unknown Creator" (f_creator_name data))).
  unfold Part000.creator_line. at_line_end.
Qed.

Lemma part000_shows_deployment_id :
  renders "Deployment ID:" (shown "Unknown" (f_deployment_id data))
          (part000_text w data) = true.
Proof.
  on_line (Part000.deployment_id_line (shown "Unknown" (f_deployment_id data))).
  unfold Part000.deployment_id_line. at_line_end.
Qed.

Lemma part000_shows_glyph :
  includes (glyph Part000.statusEmojis Part000.default_glyph (f_status data))
           (part000_text w data) = true.
Proof.
  on_line (Part000.status_line
             (glyph Part000.statusEmojis Part000.default_glyph (f_status data))
             (spliced (f_status data))).
  apply includes_here.
Qed.

Lemma index_shows_project :
  renders "Project:" (shown "Unknown" (f_project_name data))
          (index_text w data) = true.
Proof.
  on_line (Index.project_line (shown "Unknown" (f_project_name data))).
  unfold Index.project_line. at_line_end.
Qed.

Lemma index_shows_status :
  renders "Status:" (spliced (f_status data)) (index_text w data) = true.
Proof.
  on_line (Index.status_line
             (glyph Index.statusEmojis Index.default_glyph (f_status data))
             (spliced (f_status data))).
  unfold Index.status_line. apply includes_skip. at_line_end.
Qed.

Lemma index_shows_environment :
  renders "Environment:" (shown "Unknown" (f_environment_name data))
          (index_text w data) = true.
Proof.
  on_line (Index.environment_line (shown "Unknown" (f_environment_name data))).
  unfold Index.environment_line. at_line_end.
Qed.

Lemma index_shows_creator :
  renders "Creator:" (shown "Unknown" (f_creator_name data))
          (index_text w data) = true.
Proof.
  on_line (Index.creator_line (shown "Unknown" (f_creator_name data))).
  unfold Index.creator_line. at_line_end.
Qed.

Lemma index_shows_glyph :
  includes (glyph Index.statusEmojis Index.default_glyph (f_status data))
           (index_text w data) = true.
Proof.
  on_line (Index.status_line
             (glyph Index.statusEmojis Index.default_glyph (f_status data))
             (spliced (f_status data))).
  apply includes_here.
Qed.

End Shown.

Lemma glyph_listed (table : list (string * string)) (fallback k g : string) :
  assoc k table = Some g -> g <> "" -> glyph table fallback (VStr k) = g.
Proof.
  intros Hk Hg. unfold glyph, lookup. cbn [spliced]. rewrite Hk. cbn.
  destruct (g =? "") eqn:E; [apply String.eqb_eq in E; contradiction|].
  reflexivity.
Qed.

Lemma glyph_unlisted (table : list (string * string)) (fallback k : string) :
  assoc k table = None -> object_prototype k = None ->
  glyph table fallback (VStr k) = fallback.
Proof.
  intros Hk Hp. unfold glyph, lookup. cbn [spliced]. now rewrite Hk, Hp.
Qed.

Ltac table_entries k :=
  cbn [assoc];
  repeat match goal with
         | |- context [k =? ?key] =>
             destruct (k =? key);
             [let H := fresh in intros H; injection H as <-; discriminate|]
         end;
  discriminate.

Lemma part000_glyphs_nonempty (k g : string) :
  assoc k Part000.statusEmojis = Some g -> g <> "".
Proof. unfold Part000.statusEmojis. table_entries k. Qed.

Lemma index_glyphs_nonempty (k g : string) :
  assoc k Index.statusEmojis = Some g -> g <> "".
Proof. unfold Index.statusEmojis. table_entries k. Qed.

(* ===================================================================== *)
(** ** C1: validation of the discriminator                               *)
(* ===================================================================== *)

Lemma part000_rejects_missing_type (w : world) (body : value) :
  truthy (f_type body) = false ->
  outcome (Part000.webhook w body) = Ok invalid_payload_response
  /\ outbound (trace (Part000.webhook w body)) = [].
Proof.
  intros H. rewrite part000_invalid_run by assumption.
  split; reflexivity.
Qed.

(** C1 (at the failing input).  The handler of [src/index.js] has no
    validation step: a POST /webhook whose body is the empty object [{}]
    (no [type] field) is answered 200 with [{"success":true}], not 400, and
    a request without a parsed body is answered 500, the [TypeError] of
    [data.type] being caught by the handler.  Neither makes a delivery
    attempt.  The handler of [src/unnamed/part_000] answers 400 in both
    cases, as it does for every body without a [type]
    ([part000_rejects_missing_type]). *)
Theorem index_js_accepts_body_without_type (w : world) :
  (f_type empty_body = VUndefined
   /\ Index.webhook w empty_body =
      ([ConsoleLog "Received webhook:"], Ok ok_response))
  /\ Index.webhook w VUndefined =
     ([ConsoleLog "Received webhook:";
       ConsoleError "Webhook processing error:"],
      Ok internal_error_response)
  /\ outcome (Part000.webhook w empty_body) = Ok invalid_payload_response
  /\ outcome (Part000.webhook w VUndefined) = Ok invalid_payload_response.
Proof. repeat split. Qed.

(* ===================================================================== *)
(** ** C2: placeholders                                                  *)
(* ===================================================================== *)

(** Outside the data model formatting can throw: a status that is an
    object with its own [toString] entry has no string conversion, and
    both handlers answer 500. *)
Lemma unprintable_status_is_answered_500 (w : world) :
  Part000.webhook w unprintable_status = failed_run
  /\ Index.webhook w unprintable_status = failed_run.
Proof. split; reflexivity. Qed.

(** C2 (counterexample).  The payload [{"type":"DEPLOY"}] is a DEPLOY
    payload with every template value absent.  Its Status is rendered as
    ["undefined"], not as ["Unknown"], by both files; its Project is
    rendered as ["Unknown Project"], not as the literal ["Unknown"], by
    [src/unnamed/part_000].  And formatting throws on the payload with
    tag DEPLOY whose status is the object [{"toString":1}]. *)
Lemma absent_values_are_not_all_rendered_Unknown :
  deploy_payload bare_deploy = true
  /\ f_status bare_deploy = VUndefined
  /\ f_project_name bare_deploy = VUndefined
  /\ (exists m, Part000.formatDeploymentMessage delivering bare_deploy = Ok m
                /\ renders "Status:" "Unknown" m = false
                /\ renders "Status:" "undefined" m = true
                /\ renders "Project:" "Unknown" m = false
                /\ renders "Project:" "Unknown Project" m = true)
  /\ (exists m, texts (trace (Index.webhook delivering bare_deploy)) = [VStr m]
                /\ renders "Status:" "Unknown" m = false
                /\ renders "Status:" "undefined" m = true)
  /\ (is_string "DEPLOY" (f_type unprintable_status) = true
      /\ exists e,
           Part000.formatDeploymentMessage delivering unprintable_status =
           Throw e).
Proof.
  repeat split.
  - eexists. split; [reflexivity|]. repeat split.
  - eexists. split; [reflexivity|]. repeat split.
  - eexists. reflexivity.
Qed.

(** C2 (amended).  For every DEPLOY payload whose fields are strings where
    present, message formatting does not throw, in either file.  In
    [src/unnamed/part_000] an absent (or empty) Project, Environment,
    Creator and Deployment ID is rendered as ["Unknown Project"],
    ["Unknown Environment"], ["Unknown Creator"] and ["Unknown"]; in
    [src/index.js] an absent (or empty) Project, Environment and Creator is
    rendered as ["Unknown"].  Status has no placeholder: when absent it is
    rendered as ["undefined"]. *)
Theorem formatting_placeholders (w : world) (data : value) :
  deploy_payload data = true ->
  (exists m,
      Part000.formatDeploymentMessage w data = Ok m
      /\ (truthy (f_project_name data) = false ->
          renders "Project:" "Unknown Project" m = true)
      /\ (truthy (f_environment_name data) = false ->
          renders "Environment:" "Unknown Environment" m = true)
      /\ (truthy (f_creator_name data) = false ->
          renders "Creator:" "Unknown Creator" m = true)
      /\ (truthy (f_deployment_id data) = false ->
          renders "Deployment ID:" "Unknown" m = true)
      /\ (f_status data = VUndefined ->
          renders "Status:" "undefined" m = true))
  /\ (exists m,
         (e <- Index.emoji data ;; Index.message w data e) = Ok m
         /\ (truthy (f_project_name data) = false ->
             renders "Project:" "Unknown" m = true)
         /\ (truthy (f_environment_name data) = false ->
             renders "Environment:" "Unknown" m = true)
         /\ (truthy (f_creator_name data) = false ->
             renders "Creator:" "Unknown" m = true)
         /\ (f_status data = VUndefined ->
             renders "Status:" "undefined" m = true)).
Proof.
  intros Hd. pose proof Hd as H.
  apply andb_true_iff in H. destruct H as [_ Hev]. split_event Hev.
  split.
  - exists (part000_text w data). split; [now apply part000_formatting|].
    repeat split; intros Habs.
    + rewrite <- (shown_falsy "Unknown Project" (f_project_name data)) at 1
        by assumption.
      apply part000_shows_project.
    + rewrite <- (shown_falsy "Unknown Environment" (f_environment_name data)) at 1
        by assumption.
      apply part000_shows_environment.
    + rewrite <- (shown_falsy "Unknown Creator" (f_creator_name data)) at 1
        by assumption.
      apply part000_shows_creator.
    + rewrite <- (shown_falsy "Unknown" (f_deployment_id data)) at 1
        by assumption.
      apply part000_shows_deployment_id.
    + change "undefined" with (spliced VUndefined). rewrite <- Habs.
      apply part000_shows_status.
  - exists (index_text w data). split; [now apply index_formatting|].
    repeat split; intros Habs.
    + rewrite <- (shown_falsy "Unknown" (f_project_name data)) at 1
        by assumption.
      apply index_shows_project.
    + rewrite <- (shown_falsy "Unknown" (f_environment_name data)) at 1
        by assumption.
      apply index_shows_environment.
    + rewrite <- (shown_falsy "Unknown" (f_creator_name data)) at 1
        by assumption.
      apply index_shows_creator.
    + change "undefined" with (spliced VUndefined). rewrite <- Habs.
      apply index_shows_status.
Qed.

Lemma formatting_placeholders_witness :
  exists m,
    Part000.formatDeploymentMessage delivering bare_deploy = Ok m
    /\ renders "Project:" "Unknown Project" m = true
    /\ renders "Status:" "undefined" m = true.
Proof.
  destruct (formatting_placeholders delivering bare_deploy eq_refl)
    as [[m [Hm [Hp [_ [_ [_ Hs]]]]]] _].
  exists m. repeat split; [exact Hm | now apply Hp | now apply Hs].
Defined.

(* ===================================================================== *)
(** ** C3: the lines of the message                                      *)
(* ===================================================================== *)

Lemma part000_message_lines (w : world) (data : value) :
  deploy_payload data = true ->
  exists p g s e c i : string,
    texts (trace (Part000.webhook w data)) =
    [VStr (unlines [Part000.title_line; "";
                    Part000.project_line p; Part000.status_line g s;
                    Part000.environment_line e; Part000.creator_line c;
                    Part000.deployment_id_line i;
                    Part000.time_line (now_local w)])].
Proof.
  intros Hd. rewrite part000_deploy_run, delivery_texts by assumption.
  unfold part000_text. do 6 eexists. reflexivity.
Qed.

(** The example of the specification, on [src/unnamed/part_000]: 200, one
    call of the Telegram client, a message that shows "api", the SUCCESS
    glyph, "prod", "alice" and "d1", and the project's deployments URL. *)
Example part000_specification_example :
  outcome (Part000.webhook delivering example_event) = Ok ok_response
  /\ exists m,
       outbound (trace (Part000.webhook delivering example_event)) =
       [(TELEGRAM_CHAT_ID delivering, VStr m,
         {| parse_mode := "HTML";
            disable_web_page_preview := true;
            reply_markup :=
              Some (VStr "View Project",
                    VStr "https://railway.app/project/p1/deployments") |})]
       /\ renders "Project:" "api" m = true
       /\ renders "Status:" "SUCCESS" m = true
       /\ renders "Environment:" "prod" m = true
       /\ renders "Creator:" "alice" m = true
       /\ renders "Deployment ID:" "d1" m = true.
Proof. split; [reflexivity|]. eexists. repeat split. Qed.

(** C3 (at the failing input).  For the example event of the
    specification, the message sent by [src/index.js] is the title line,
    an empty line, and the lines for Project, Status (with glyph),
    Environment, Creator and Time: it has no Deployment ID line and does
    not mention the deployment id ["d1"].  The message of
    [src/unnamed/part_000] has the Deployment ID line, as it has all the
    lines for every DEPLOY payload ([part000_message_lines]). *)
Theorem index_js_message_has_no_deployment_id :
  deploy_payload example_event = true
  /\ f_deployment_id example_event = VStr "d1"
  /\ (exists m,
         texts (trace (Index.webhook delivering example_event)) = [VStr m]
         /\ m = unlines
                  [Index.title_line; "";
                   Index.project_line "api";
                   Index.status_line
                     (glyph Index.statusEmojis Index.default_glyph
                            (VStr "SUCCESS"))
                     "SUCCESS";
                   Index.environment_line "prod";
                   Index.creator_line "alice";
                   Index.time_line (now_local delivering)]
         /\ includes "Deployment ID" m = false
         /\ includes "d1" m = false)
  /\ (exists m,
         texts (trace (Part000.webhook delivering example_event)) = [VStr m]
         /\ renders "Deployment ID:" "d1" m = true).
Proof.
  repeat split.
  - eexists. split; [reflexivity|]. repeat split.
  - eexists. split; reflexivity.
Qed.

(* ===================================================================== *)
(** ** C4: methods on the webhook path                                   *)
(* ===================================================================== *)

(** C4 (counterexample).  A PUT request to [/webhook] is not a POST, and
    the server of [src/unnamed/part_000] answers it 404, not 405. *)
Lemma put_on_webhook_path_is_not_405 :
  "PUT" <> "POST"
  /\ outcome (Part000.app delivering "PUT" "/webhook" VUndefined) =
     Ok not_found_response
  /\ status not_found_response <> 405%Z.
Proof. repeat split; discriminate. Qed.

(** C4 (amended).  In the server of [src/unnamed/part_000], a non-POST
    request to the webhook path is answered 405 with the "Method Not
    Allowed" body when its method is GET (or HEAD, which Express routes to
    the GET handler), and 404 "Endpoint not found" for every other
    method. *)
Theorem webhook_path_non_post_methods (w : world) (method : string) (body : value) :
  method <> "POST" ->
  outcome (Part000.app w method "/webhook" body) =
  Ok (if (method =? "GET") || (method =? "HEAD")
      then method_not_allowed_response
      else not_found_response).
Proof.
  intros Hm. apply String.eqb_neq in Hm.
  unfold Part000.app, request_logger, console_log, Part000.routes.
  unfold dispatch, handles. cbn [route_method route_path handler].
  rewrite Hm.
  destruct (method =? "GET") eqn:Eg;
    destruct (method =? "HEAD") eqn:Eh; reflexivity.
Qed.

Lemma webhook_path_non_post_methods_witness :
  outcome (Part000.app delivering "GET" "/webhook" VUndefined) =
  Ok method_not_allowed_response.
Proof.
  apply (webhook_path_non_post_methods delivering "GET" VUndefined).
  discriminate.
Defined.

(** [src/index.js] registers no GET route for the webhook path. *)
Lemma index_js_get_webhook_is_404 (w : world) (body : value) :
  outcome (Index.app w "GET" "/webhook" body) = Ok not_found_response.
Proof. reflexivity. Qed.

(* ===================================================================== *)
(** ** C5: delivery failures and the HTTP response                       *)
(* ===================================================================== *)

(** C5.  Let the outbound send fail.  Whenever a handler attempts the
    send -- as both do for every DEPLOY payload -- the failure is caught
    and reported by [sendMessage] itself (the run ends with its console
    line; the handler's own catch block does not run), and the webhook
    caller still receives 200 with [{"success":true}]. *)
Theorem delivery_failure_keeps_200 (w : world) (body : value) :
  (forall chat text opts, telegram w chat text opts <> None) ->
  (outbound (trace (Part000.webhook w body)) <> [] ->
   outcome (Part000.webhook w body) = Ok ok_response
   /\ last (trace (Part000.webhook w body)) (ConsoleLog "") =
      ConsoleError "Failed to send Telegram message:")
  /\ (outbound (trace (Index.webhook w body)) <> [] ->
      outcome (Index.webhook w body) = Ok ok_response
      /\ last (trace (Index.webhook w body)) (ConsoleLog "") =
         ConsoleError "Failed to send Telegram message:")
  /\ (deploy_payload body = true ->
      outbound (trace (Part000.webhook w body)) <> []
      /\ outbound (trace (Index.webhook w body)) <> []).
Proof.
  intros Hfail. split; [|split].
  - intros Hsent.
    destruct (part000_attempts w body Hsent) as [props [m [u [_ [_ ->]]]]].
    split; [reflexivity | now apply attempt_failing].
  - intros Hsent.
    destruct (index_attempts w body Hsent) as [props [m [u [_ [_ ->]]]]].
    split; [reflexivity | now apply attempt_failing].
  - intros Hd.
    rewrite part000_deploy_run, index_deploy_run, !delivery_outbound
      by assumption.
    split; discriminate.
Qed.

Lemma delivery_failure_keeps_200_witness :
  outcome (Part000.webhook failing example_event) = Ok ok_response
  /\ outcome (Index.webhook failing example_event) = Ok ok_response.
Proof.
  assert (Hf : forall chat text opts, telegram failing chat text opts <> None)
    by (intros; discriminate).
  destruct (delivery_failure_keeps_200 failing example_event Hf)
    as [HP [HI Hsent]].
  destruct (Hsent eq_refl) as [NP NI].
  split; [apply (HP NP) | apply (HI NI)].
Defined.

(* ===================================================================== *)
(** ** C6: status glyphs                                                 *)
(* ===================================================================== *)

Lemma listed_status_shows_its_glyph (w : world) (data : value) (k : string) :
  deploy_payload data = true ->
  f_status data = VStr k ->
  (forall g, assoc k Part000.statusEmojis = Some g ->
             exists m, texts (trace (Part000.webhook w data)) = [VStr m]
                       /\ includes g m = true)
  /\ (forall g, assoc k Index.statusEmojis = Some g ->
                exists m, texts (trace (Index.webhook w data)) = [VStr m]
                          /\ includes g m = true).
Proof.
  intros Hd Hk. split; intros g Hg.
  - exists (part000_text w data).
    rewrite part000_deploy_run, delivery_texts by assumption.
    split; [reflexivity|].
    rewrite <- (glyph_listed _ Part000.default_glyph _ _ Hg
                  (part000_glyphs_nonempty _ _ Hg)), <- Hk.
    apply part000_shows_glyph.
  - exists (index_text w data).
    rewrite index_deploy_run, delivery_texts by assumption.
    split; [reflexivity|].
    rewrite <- (glyph_listed _ Index.default_glyph _ _ Hg
                  (index_glyphs_nonempty _ _ Hg)), <- Hk.
    apply index_shows_glyph.
Qed.

Lemma unlisted_status_shows_default_glyph (w : world) (data : value) (k : string) :
  deploy_payload data = true ->
  f_status data = VStr k ->
  object_prototype k = None ->
  (assoc k Part000.statusEmojis = None ->
   exists m, texts (trace (Part000.webhook w data)) = [VStr m]
             /\ includes Part000.default_glyph m = true)
  /\ (assoc k Index.statusEmojis = None ->
      exists m, texts (trace (Index.webhook w data)) = [VStr m]
                /\ includes Index.default_glyph m = true).
Proof.
  intros Hd Hk Hp. split; intros Hg.
  - exists (part000_text w data).
    rewrite part000_deploy_run, delivery_texts by assumption.
    split; [reflexivity|].
    rewrite <- (glyph_unlisted _ Part000.default_glyph _ Hg Hp) at 1.
    rewrite <- Hk. apply part000_shows_glyph.
  - exists (index_text w data).
    rewrite index_deploy_run, delivery_texts by assumption.
    split; [reflexivity|].
    rewrite <- (glyph_unlisted _ Index.default_glyph _ Hg Hp) at 1.
    rewrite <- Hk. apply index_shows_glyph.
Qed.

(** C6 (at the failing input).  The status ["constructor"] is a string
    that is not a key of either status table, yet [statusEmojis[status]]
    finds the member inherited from [Object.prototype], which is truthy:
    the default glyph is not chosen, and the message of both files shows
    the text of the function in its place and does not contain the default
    glyph.  (Listed statuses show their glyph, and unlisted statuses that
    name no inherited member show the default one:
    [listed_status_shows_its_glyph],
    [unlisted_status_shows_default_glyph].) *)
Theorem inherited_status_name_displaces_default_glyph :
  deploy_payload inherited_status = true
  /\ f_status inherited_status = VStr "constructor"
  /\ assoc "constructor" Part000.statusEmojis = None
  /\ assoc "constructor" Index.statusEmojis = None
  /\ (exists m,
         texts (trace (Part000.webhook delivering inherited_status)) = [VStr m]
         /\ includes Part000.default_glyph m = false
         /\ includes "function Object() { [native code] } <b>Status:</b>" m = true)
  /\ (exists m,
         texts (trace (Index.webhook delivering inherited_status)) = [VStr m]
         /\ includes Index.default_glyph m = false
         /\ includes "function Object() { [native code] } <b>Status:</b>" m = true).
Proof.
  repeat split.
  - eexists. split; [reflexivity|]. split; reflexivity.
  - eexists. split; [reflexivity|]. split; reflexivity.
Qed.

(* ===================================================================== *)
(** ** C7: the navigation URL                                            *)
(* ===================================================================== *)

(** C7.  Every call that either handler makes of the Notifier carries
    the button "View Project" with target
    [https://railway.app/project/<project.id>/deployments] when
    [project.id] is present (a non-empty id, the handlers' own test), and
    with the landing URL [https://railway.app] when it is absent (or
    empty); and for every DEPLOY payload each handler makes exactly one
    such call. *)
Theorem navigation_url (w : world) (body : value) :
  (forall call : string * value * options,
      In call (outbound (trace (Part000.webhook w body)))
      \/ In call (outbound (trace (Index.webhook w body))) ->
      (forall id : string,
          f_project_id body = VStr id -> id <> "" ->
          reply_markup (snd call) =
          Some (VStr "View Project",
                VStr ("https://railway.app/project/" ++ id ++ "/deployments")))
      /\ (truthy (f_project_id body) = false ->
          reply_markup (snd call) =
          Some (VStr "View Project", VStr "https://railway.app")))
  /\ (deploy_payload body = true ->
      length (outbound (trace (Part000.webhook w body))) = 1
      /\ length (outbound (trace (Index.webhook w body))) = 1).
Proof.
  split.
  - intros call Hin.
    assert (exists url,
               buttonUrl body = Ok url
               /\ reply_markup (snd call) = Some (VStr "View Project", VStr url))
      as [url [Hu ->]].
    { destruct Hin as [Hin|Hin].
      - destruct (part000_attempts w body) as [props [m [u [-> [Hu Hrun]]]]].
        + intros E. rewrite E in Hin. contradiction.
        + rewrite Hrun in Hin. exists u. split; [exact Hu|].
          now apply (attempt_call w m u), Hin; apply (buttonUrl_nonempty _ _ Hu).
      - destruct (index_attempts w body) as [props [m [u [-> [Hu Hrun]]]]].
        + intros E. rewrite E in Hin. contradiction.
        + rewrite Hrun in Hin. exists u. split; [exact Hu|].
          now apply (attempt_call w m u), Hin; apply (buttonUrl_nonempty _ _ Hu). }
    destruct (buttonUrl_cases _ _ Hu) as [Hpresent Habsent]. split.
    + intros id Hid Hne. now rewrite (Hpresent id Hid Hne).
    + intros Hfalsy. now rewrite (Habsent Hfalsy).
  - intros Hd.
    rewrite part000_deploy_run, index_deploy_run, !delivery_outbound
      by assumption.
    split; reflexivity.
Qed.

Lemma navigation_url_witness :
  exists call,
    In call (outbound (trace (Part000.webhook delivering example_event)))
    /\ reply_markup (snd call) =
       Some (VStr "View Project",
             VStr "https://railway.app/project/p1/deployments").
Proof.
  destruct (navigation_url delivering example_event) as [Hcalls Hone].
  exists (TELEGRAM_CHAT_ID delivering,
          VStr (part000_text delivering example_event),
          keyboard (VStr "View Project")
                   (VStr "https://railway.app/project/p1/deployments")).
  split; [left; reflexivity|].
  apply (proj1 (Hcalls _ (or_introl (or_introl eq_refl))) "p1");
    [reflexivity | discriminate].
Defined.

(* ===================================================================== *)
(** ** C8: tags other than DEPLOY                                        *)
(* ===================================================================== *)

(** C8.  For every POST /webhook payload whose [type] is present (passes
    the handler's presence test) and is not ["DEPLOY"] -- ["SERVICE"] or
    any other tag -- both handlers answer 200 with [{"success":true}] and
    make no call of the Telegram client. *)
Theorem other_tags_are_acknowledged_only (w : world) (body : value) :
  truthy (f_type body) = true ->
  is_string "DEPLOY" (f_type body) = false ->
  (outcome (Part000.webhook w body) = Ok ok_response
   /\ outbound (trace (Part000.webhook w body)) = [])
  /\ (outcome (Index.webhook w body) = Ok ok_response
      /\ outbound (trace (Index.webhook w body)) = []).
Proof.
  intros Ht Htag.
  rewrite part000_other_run, index_other_run by assumption.
  destruct (tag_is_object body Ht) as [props ->].
  repeat split; reflexivity.
Qed.

Lemma other_tags_are_acknowledged_only_witness :
  (outcome (Part000.webhook delivering service_event) = Ok ok_response
   /\ outbound (trace (Part000.webhook delivering service_event)) = [])
  /\ (outcome (Index.webhook delivering service_event) = Ok ok_response
      /\ outbound (trace (Index.webhook delivering service_event)) = []).
Proof.
  apply (other_tags_are_acknowledged_only delivering service_event);
    reflexivity.
Defined.

(* ===================================================================== *)
(** ** C9: the two handlers compared                                     *)
(* ===================================================================== *)

(** C9 (counterexample).  On the body [{}] the two handlers return
    different responses: 400 "Invalid payload" from
    [src/unnamed/part_000], 200 [{"success":true}] from [src/index.js].
    On the example of the specification they send different message
    texts.  On a DEPLOY payload whose [deployment.id] has no string
    conversion, [src/unnamed/part_000] answers 500 without a delivery and
    [src/index.js], which does not read the id, delivers and answers
    200. *)
Lemma handlers_differ :
  (outcome (Part000.webhook delivering empty_body) = Ok invalid_payload_response
   /\ outcome (Index.webhook delivering empty_body) = Ok ok_response
   /\ outcome (Part000.webhook delivering empty_body)
      <> outcome (Index.webhook delivering empty_body))
  /\ texts (trace (Part000.webhook delivering example_event))
     <> texts (trace (Index.webhook delivering example_event))
  /\ (outcome (Part000.webhook delivering unprintable_deployment_id) =
        Ok internal_error_response
      /\ outcome (Index.webhook delivering unprintable_deployment_id) =
        Ok ok_response
      /\ outbound (trace (Part000.webhook delivering unprintable_deployment_id))
         = []
      /\ length (outbound
                   (trace (Index.webhook delivering unprintable_deployment_id)))
         = 1).
Proof. repeat split; discriminate. Qed.

(** C9 (amended).  For every POST /webhook request whose body carries a
    [type] (one that passes the presence test) and whose [deployment.id],
    when present, has a string conversion, the two handlers return the
    same status code and body, and they call the Telegram client in
    exactly the same cases, for the same chat and with the same options
    (button label and URL). *)
Theorem handlers_agree_on_tagged_events (w : world) (body : value) :
  truthy (f_type body) = true ->
  printable (f_deployment_id body) = true ->
  outcome (Part000.webhook w body) = outcome (Index.webhook w body)
  /\ destinations (trace (Part000.webhook w body)) =
     destinations (trace (Index.webhook w body)).
Proof.
  intros Ht Hid.
  destruct (is_string "DEPLOY" (f_type body)) eqn:Htag.
  - destruct (tag_is_object body Ht) as [props ->].
    rewrite part000_deploy_cases, index_deploy_cases by assumption.
    pose proof (formatters_throw_together w props Hid) as H.
    destruct (Part000.formatDeploymentMessage w (VObj props)) as [m|e];
      destruct (e <- Index.emoji (VObj props) ;; Index.message w (VObj props) e)
        as [m'|e']; try contradiction.
    + destruct (buttonUrl (VObj props)) as [url|x]; [|split; reflexivity].
      unfold destinations. rewrite !attempt_outbound. split; reflexivity.
    + split; reflexivity.
  - rewrite part000_other_run, index_other_run by assumption.
    destruct (tag_is_object body Ht) as [props ->].
    split; reflexivity.
Qed.

Lemma handlers_agree_on_tagged_events_witness :
  outcome (Part000.webhook failing example_event) =
    outcome (Index.webhook failing example_event)
  /\ destinations (trace (Part000.webhook failing example_event)) =
     destinations (trace (Index.webhook failing example_event)).
Proof.
  apply (handlers_agree_on_tagged_events failing example_event); reflexivity.
Defined.

(* ===================================================================== *)
(** ** C10: the Notifier never throws                                    *)
(* ===================================================================== *)

(** C10.  For every message, button label and button URL, and whatever
    the Telegram client does (resolve, reject or throw), [sendMessage]
    completes normally: it makes its one call of the client, and no
    exception reaches the caller. *)
Theorem sendMessage_completes_normally
    (w : world) (message buttonText buttonUrl : value) :
  outcome (sendMessage w message buttonText buttonUrl) = Ok tt
  /\ outbound (trace (sendMessage w message buttonText buttonUrl)) =
     [(TELEGRAM_CHAT_ID w, message, keyboard buttonText buttonUrl)].
Proof.
  rewrite sendMessage_run. split; [reflexivity|].
  unfold trace, outbound, delivery_report. cbn [fst flat_map app].
  telegram_cases; reflexivity.
Qed.

(* ===================================================================== *)
(** * Further properties of the two files                                *)
(* ===================================================================== *)

(* ===================================================================== *)
(** ** The Notifier: options and report                                  *)
(* ===================================================================== *)

Lemma truthy_default_null (v : value) : truthy (default_null v) = truthy v.
Proof. now destruct v. Qed.

(** X1.  [sendMessage] always calls the client once, for the configured
    chat, with the message it was given, parse mode HTML and link previews
    disabled.  The call carries an inline keyboard -- one button with the
    given label and URL -- exactly when both the label and the URL are
    truthy; a missing, [null] or empty label or URL gives a call without
    [reply_markup]. *)
Theorem sendMessage_call (w : world) (message buttonText buttonUrl : value) :
  exists opts,
    outbound (trace (sendMessage w message buttonText buttonUrl)) =
    [(TELEGRAM_CHAT_ID w, message, opts)]
    /\ parse_mode opts = "HTML"
    /\ disable_web_page_preview opts = true
    /\ (truthy buttonText && truthy buttonUrl = true ->
        reply_markup opts = Some (buttonText, buttonUrl))
    /\ (truthy buttonText && truthy buttonUrl = false ->
        reply_markup opts = None).
Proof.
  exists (keyboard buttonText buttonUrl).
  rewrite sendMessage_run. split.
  - unfold trace, outbound, delivery_report. cbn [fst flat_map app].
    telegram_cases; reflexivity.
  - unfold keyboard. cbn [parse_mode disable_web_page_preview reply_markup].
    rewrite !truthy_default_null. repeat split; intros H; rewrite H;
      [|reflexivity].
    apply andb_true_iff in H. destruct H as [Ht Hu].
    destruct buttonText; try discriminate; destruct buttonUrl;
      try discriminate; reflexivity.
Qed.

(** X2.  The run of [sendMessage] is the client call followed by exactly
    one console line: "Message sent successfully" on [console.log] when the
    call resolves, "Failed to send Telegram message:" on [console.error]
    when it throws or rejects.  Nothing is logged before the call, and a
    failure is not retried. *)
Theorem sendMessage_report (w : world) (message buttonText buttonUrl : value) :
  exists opts,
    trace (sendMessage w message buttonText buttonUrl) =
    [TelegramSend (TELEGRAM_CHAT_ID w) message opts;
     match telegram w (TELEGRAM_CHAT_ID w) message opts with
     | None => ConsoleLog "Message sent successfully"
     | Some _ => ConsoleError "Failed to send Telegram message:"
     end].
Proof. rewrite sendMessage_run. eexists. reflexivity. Qed.

(* ===================================================================== *)
(** ** The webhook handlers on every body                                *)
(* ===================================================================== *)

(** The runs a handler can make. *)
Lemma part000_shapes (w : world) (body : value) :
  (truthy (f_type body) = false
   /\ Part000.webhook w body =
      ([ConsoleLog "Received webhook:";
        ConsoleLog "Invalid webhook payload - missing type"],
       Ok invalid_payload_response))
  \/ (truthy (f_type body) = true
      /\ is_string "DEPLOY" (f_type body) = false
      /\ exists line,
           Part000.webhook w body =
           ([ConsoleLog "Received webhook:"; ConsoleLog line], Ok ok_response))
  \/ (is_string "DEPLOY" (f_type body) = true
      /\ (Part000.webhook w body = failed_run
          \/ exists message url,
               buttonUrl body = Ok url
               /\ Part000.webhook w body = attempt w message url)).
Proof.
  destruct (truthy (f_type body)) eqn:Ht.
  - destruct (is_string "DEPLOY" (f_type body)) eqn:Htag.
    + right. right. split; [reflexivity|].
      destruct (tag_is_object body Ht) as [props ->].
      rewrite part000_deploy_cases by assumption.
      destruct (Part000.formatDeploymentMessage w (VObj props)) as [m|e];
        [|now left].
      destruct (buttonUrl (VObj props)) as [u|e]; [|now left].
      right. eauto.
    + right. left. rewrite part000_other_run by assumption. eauto.
  - left. rewrite part000_invalid_run by assumption. auto.
Qed.

Lemma index_shapes (w : world) (body : value) :
  (is_string "DEPLOY" (f_type body) = false
   /\ Index.webhook w body =
      match body with
      | VUndefined | VNull => failed_run
      | _ => ([ConsoleLog "Received webhook:"], Ok ok_response)
      end)
  \/ (is_string "DEPLOY" (f_type body) = true
      /\ (Index.webhook w body = failed_run
          \/ exists message url,
               buttonUrl body = Ok url
               /\ Index.webhook w body = attempt w message url)).
Proof.
  destruct (is_string "DEPLOY" (f_type body)) eqn:Htag.
  - right. split; [reflexivity|].
    destruct (tag_is_object body (deploy_tag_truthy _ Htag)) as [props ->].
    rewrite index_deploy_cases by assumption.
    destruct (e <- Index.emoji (VObj props) ;; Index.message w (VObj props) e)
      as [m|e]; [|now left].
    destruct (buttonUrl (VObj props)) as [u|e]; [|now left].
    right. eauto.
  - left. rewrite index_other_run by assumption. auto.
Qed.

Lemma attempt_one_call (w : world) (message url : string) :
  List.length (outbound (trace (attempt w message url))) = 1.
Proof. now rewrite attempt_outbound. Qed.

Ltac shape_cases w body :=
  destruct (part000_shapes w body)
    as [[?Ht ?Hrun]|[[?Ht [?Htag [?line ?Hrun]]]
                    |[?Htag [?Hrun|[?m [?u [?Hu ?Hrun]]]]]]].

Ltac index_shape_cases w body :=
  destruct (index_shapes w body)
    as [[?Htag ?Hrun]|[?Htag [?Hrun|[?m [?u [?Hu ?Hrun]]]]]].

(** X3.  Whatever the body -- absent, not an object, or with fields of any
    type -- no exception leaves a webhook handler: the handler of
    [src/unnamed/part_000] answers 200, 400 or 500, the handler of
    [src/index.js] answers 200 or 500, and each calls the Telegram client
    at most once. *)
Theorem webhook_answers (w : world) (body : value) :
  (exists r,
      outcome (Part000.webhook w body) = Ok r
      /\ (r = ok_response \/ r = invalid_payload_response
          \/ r = internal_error_response)
      /\ List.length (outbound (trace (Part000.webhook w body))) <= 1)
  /\ (exists r,
         outcome (Index.webhook w body) = Ok r
         /\ (r = ok_response \/ r = internal_error_response)
         /\ List.length (outbound (trace (Index.webhook w body))) <= 1).
Proof.
  split.
  - shape_cases w body; rewrite Hrun; try rewrite attempt_one_call;
      eexists; (split; [reflexivity|]); cbn; auto.
  - index_shape_cases w body; rewrite Hrun; try rewrite attempt_one_call;
      try (destruct body); eexists; (split; [reflexivity|]); cbn; auto.
Qed.

(** X4.  A handler calls the Telegram client only for a body whose [type]
    is exactly the string ["DEPLOY"], and a request for which it has called
    the client is always answered 200 with [{"success":true}]: a 400 or a
    500 response means that nothing was sent. *)
Theorem delivery_only_for_deploy (w : world) (body : value) :
  (outbound (trace (Part000.webhook w body)) <> [] ->
   f_type body = VStr "DEPLOY"
   /\ outcome (Part000.webhook w body) = Ok ok_response)
  /\ (outbound (trace (Index.webhook w body)) <> [] ->
      f_type body = VStr "DEPLOY"
      /\ outcome (Index.webhook w body) = Ok ok_response).
Proof.
  assert (Htype : is_string "DEPLOY" (f_type body) = true ->
                  f_type body = VStr "DEPLOY").
  { destruct (f_type body); try discriminate. cbn.
    intros H. apply String.eqb_eq in H. now subst. }
  split; intros Hsent.
  - shape_cases w body; rewrite Hrun in Hsent |- *;
      try (now elim Hsent). auto.
  - index_shape_cases w body; rewrite Hrun in Hsent |- *;
      try (destruct body; now elim Hsent); try (now elim Hsent). auto.
Qed.

Lemma delivery_only_for_deploy_witness :
  f_type example_event = VStr "DEPLOY"
  /\ outcome (Part000.webhook failing example_event) = Ok ok_response.
Proof.
  apply (proj1 (delivery_only_for_deploy failing example_event)).
  discriminate.
Defined.

Lemma buttonUrl_prefix (data : value) (url : string) :
  buttonUrl data = Ok url -> prefix "https://railway.app" url = true.
Proof.
  unfold buttonUrl. destruct (member data "project") as [project|e];
    run_monad; [|discriminate].
  destruct (truthy (opt_member project "id")).
  - destruct (to_string (opt_member project "id")); run_monad;
      [|discriminate].
    intros H. injection H as <-. reflexivity.
  - intros H. injection H as <-. reflexivity.
Qed.

(** X5.  Every call of the Telegram client that a webhook handler makes
    goes to the configured chat, with a string as message, parse mode HTML
    and link previews disabled, and carries exactly one button, labelled
    "View Project", whose target starts with [https://railway.app]
    whatever the payload holds. *)
Theorem delivery_call_shape (w : world) (body : value)
    (call : string * value * options) :
  In call (outbound (trace (Part000.webhook w body)))
  \/ In call (outbound (trace (Index.webhook w body))) ->
  fst (fst call) = TELEGRAM_CHAT_ID w
  /\ (exists text, snd (fst call) = VStr text)
  /\ parse_mode (snd call) = "HTML"
  /\ disable_web_page_preview (snd call) = true
  /\ exists url,
       reply_markup (snd call) = Some (VStr "View Project", VStr url)
       /\ prefix "https://railway.app" url = true.
Proof.
  assert (Hattempt : forall m u,
             buttonUrl body = Ok u ->
             In call (outbound (trace (attempt w m u))) ->
             fst (fst call) = TELEGRAM_CHAT_ID w
             /\ (exists text, snd (fst call) = VStr text)
             /\ parse_mode (snd call) = "HTML"
             /\ disable_web_page_preview (snd call) = true
             /\ exists url,
                  reply_markup (snd call) = Some (VStr "View Project", VStr url)
                  /\ prefix "https://railway.app" url = true).
  { intros m u Hu Hin.
    pose proof (attempt_call w m u call (buttonUrl_nonempty _ _ Hu) Hin) as Hb.
    rewrite attempt_outbound in Hin. destruct Hin as [<-|[]].
    cbn [fst snd] in *. repeat split; eauto using buttonUrl_prefix. }
  intros [Hin|Hin].
  - shape_cases w body; rewrite Hrun in Hin; try contradiction; eauto.
  - index_shape_cases w body; rewrite Hrun in Hin;
      try (destruct body; contradiction); try contradiction; eauto.
Qed.

Lemma delivery_call_shape_witness :
  exists call,
    In call (outbound (trace (Index.webhook delivering example_event)))
    /\ fst (fst call) = TELEGRAM_CHAT_ID delivering
    /\ parse_mode (snd call) = "HTML".
Proof.
  exists (TELEGRAM_CHAT_ID delivering,
          VStr (index_text delivering example_event),
          keyboard (VStr "View Project")
                   (VStr "https://railway.app/project/p1/deployments")).
  assert (Hin : In (TELEGRAM_CHAT_ID delivering,
                    VStr (index_text delivering example_event),
                    keyboard (VStr "View Project")
                      (VStr "https://railway.app/project/p1/deployments"))
                   (outbound (trace (Index.webhook delivering example_event))))
    by (left; reflexivity).
  destruct (delivery_call_shape delivering example_event _ (or_intror Hin))
    as [Hchat [_ [Hmode _]]].
  repeat split; assumption.
Defined.

(** X6.  The handler of [src/unnamed/part_000] answers 400 "Invalid
    payload" exactly for the bodies whose [type] is missing or falsy -- an
    absent body, a body that is not an object, and a [type] that is [null],
    [false], [0] or the empty string -- and then logs the rejection and
    sends nothing. *)
Theorem part000_rejects_exactly_falsy_type (w : world) (body : value) :
  (outcome (Part000.webhook w body) = Ok invalid_payload_response
   <-> truthy (f_type body) = false)
  /\ (truthy (f_type body) = false ->
      trace (Part000.webhook w body) =
      [ConsoleLog "Received webhook:";
       ConsoleLog "Invalid webhook payload - missing type"]).
Proof.
  split; [split|].
  - shape_cases w body; rewrite Hrun; auto; cbn; discriminate.
  - intros H. now rewrite part000_invalid_run.
  - intros H. now rewrite part000_invalid_run.
Qed.

Lemma part000_rejects_exactly_falsy_type_witness :
  trace (Part000.webhook delivering (VObj [("type", VStr "")])) =
  [ConsoleLog "Received webhook:";
   ConsoleLog "Invalid webhook payload - missing type"].
Proof.
  apply (proj2 (part000_rejects_exactly_falsy_type delivering
                  (VObj [("type", VStr "")]))).
  reflexivity.
Defined.

(** X7.  The handler of [src/index.js] never answers 400.  A body that is
    not tagged ["DEPLOY"] -- whether its [type] is missing, falsy or any
    other value -- is answered 200 with [{"success":true}] and nothing is
    sent, except that an absent body ([undefined] or [null]) makes
    [data.type] throw and is answered 500. *)
Theorem index_untagged_bodies (w : world) (body : value) :
  is_string "DEPLOY" (f_type body) = false ->
  outbound (trace (Index.webhook w body)) = []
  /\ outcome (Index.webhook w body) =
     Ok (match body with
         | VUndefined | VNull => internal_error_response
         | _ => ok_response
         end).
Proof.
  intros H. rewrite index_other_run by assumption.
  destruct body; split; reflexivity.
Qed.

Lemma index_untagged_bodies_witness :
  outbound (trace (Index.webhook delivering VNull)) = []
  /\ outcome (Index.webhook delivering VNull) = Ok internal_error_response.
Proof. apply (index_untagged_bodies delivering VNull). reflexivity. Defined.

(* ===================================================================== *)
(** ** The message of a DEPLOY payload                                   *)
(* ===================================================================== *)

(** X8.  For every DEPLOY payload whose fields are strings where present,
    each handler sends exactly one message, and it is the template of its
    file filled in line by line: title, empty line, Project, Status with
    its glyph, Environment, Creator, (in [src/unnamed/part_000] only)
    Deployment ID, and Time with the local time of the request.  A value
    that is absent or empty is replaced by its placeholder, the status is
    spliced as it is. *)
Theorem deploy_message_text (w : world) (data : value) :
  deploy_payload data = true ->
  texts (trace (Part000.webhook w data)) =
  [VStr (unlines
           [Part000.title_line; "";
            Part000.project_line (shown "Unknown Project" (f_project_name data));
            Part000.status_line
              (glyph Part000.statusEmojis Part000.default_glyph (f_status data))
              (spliced (f_status data));
            Part000.environment_line
              (shown "Unknown Environment" (f_environment_name data));
            Part000.creator_line
              (shown "Unknown Creator" (f_creator_name data));
            Part000.deployment_id_line (shown "Unknown" (f_deployment_id data));
            Part000.time_line (now_local w)])]
  /\ texts (trace (Index.webhook w data)) =
     [VStr (unlines
              [Index.title_line; "";
               Index.project_line (shown "Unknown" (f_project_name data));
               Index.status_line
                 (glyph Index.statusEmojis Index.default_glyph (f_status data))
                 (spliced (f_status data));
               Index.environment_line (shown "Unknown" (f_environment_name data));
               Index.creator_line (shown "Unknown" (f_creator_name data));
               Index.time_line (now_local w)])].
Proof.
  intros Hd.
  rewrite part000_deploy_run, index_deploy_run, !delivery_texts by assumption.
  split; reflexivity.
Qed.

Lemma deploy_message_text_witness :
  texts (trace (Index.webhook delivering bare_deploy)) =
  [VStr (unlines
           [Index.title_line; "";
            Index.project_line "Unknown";
            Index.status_line Index.default_glyph "undefined";
            Index.environment_line "Unknown";
            Index.creator_line "Unknown";
            Index.time_line "3/1/2026, 9:30:00 AM"])].
Proof.
  apply (proj2 (deploy_message_text delivering bare_deploy eq_refl)).
Defined.

Lemma append_assoc_s (a b c : string) : (a ++ b) ++ c = a ++ b ++ c.
Proof. induction a as [|x a IH]; simpl; [reflexivity | now rewrite IH]. Qed.

Lemma shown_present (placeholder s : string) :
  s <> "" -> shown placeholder (VStr s) = s.
Proof.
  intros H. cbn. destruct (s =? "") eqn:E; [|reflexivity].
  apply String.eqb_eq in E. contradiction.
Qed.

(** X9.  The values of a DEPLOY payload are spliced into the message as
    they are, without HTML escaping or truncation: a non-empty project
    name, environment name, creator name and status appears verbatim
    between [<code>] and [</code>] on its labelled line in the message of
    both files, and so does the deployment id in the message of
    [src/unnamed/part_000]. *)
Theorem present_values_verbatim (w : world) (data : value) :
  deploy_payload data = true ->
  exists mP mI,
    texts (trace (Part000.webhook w data)) = [VStr mP]
    /\ texts (trace (Index.webhook w data)) = [VStr mI]
    /\ forall s : string,
         s <> "" ->
         (f_project_name data = VStr s ->
          renders "Project:" s mP = true /\ renders "Project:" s mI = true)
         /\ (f_status data = VStr s ->
             renders "Status:" s mP = true /\ renders "Status:" s mI = true)
         /\ (f_environment_name data = VStr s ->
             renders "Environment:" s mP = true
             /\ renders "Environment:" s mI = true)
         /\ (f_creator_name data = VStr s ->
             renders "Creator:" s mP = true /\ renders "Creator:" s mI = true)
         /\ (f_deployment_id data = VStr s ->
             renders "Deployment ID:" s mP = true).
Proof.
  intros Hd. exists (part000_text w data), (index_text w data).
  rewrite part000_deploy_run, index_deploy_run, !delivery_texts by assumption.
  split; [reflexivity|]. split; [reflexivity|].
  intros s Hs.
  split; [|split; [|split; [|split]]]; intros Hv;
    [split|split|split|split|].
  - rewrite <- (shown_present "Unknown Project" s Hs), <- Hv.
    apply part000_shows_project.
  - rewrite <- (shown_present "Unknown" s Hs), <- Hv.
    apply index_shows_project.
  - change s with (spliced (VStr s)). rewrite <- Hv.
    apply part000_shows_status.
  - change s with (spliced (VStr s)). rewrite <- Hv.
    apply index_shows_status.
  - rewrite <- (shown_present "Unknown Environment" s Hs), <- Hv.
    apply part000_shows_environment.
  - rewrite <- (shown_present "Unknown" s Hs), <- Hv.
    apply index_shows_environment.
  - rewrite <- (shown_present "Unknown Creator" s Hs), <- Hv.
    apply part000_shows_creator.
  - rewrite <- (shown_present "Unknown" s Hs), <- Hv.
    apply index_shows_creator.
  - rewrite <- (shown_present "Unknown" s Hs), <- Hv.
    apply part000_shows_deployment_id.
Qed.

Lemma present_values_verbatim_witness :
  exists mP,
    texts (trace (Part000.webhook delivering example_event)) = [VStr mP]
    /\ renders "Project:" "api" mP = true
    /\ renders "Deployment ID:" "d1" mP = true.
Proof.
  destruct (present_values_verbatim delivering example_event eq_refl)
    as [mP [mI [HP [_ Hv]]]].
  exists mP. split; [exact HP|]. split.
  - destruct (Hv "api") as [Hproject _]; [discriminate|].
    now apply Hproject.
  - destruct (Hv "d1") as [_ [_ [_ [_ Hid]]]]; [discriminate|].
    now apply Hid.
Defined.

(** X10.  For every DEPLOY payload whose status is a key of the status
    table of a file, the message of that file contains the glyph the table
    gives for it: the eight statuses of [src/unnamed/part_000], the
    thirteen of [src/index.js]. *)
Theorem listed_status_glyph (w : world) (data : value) (k g : string) :
  deploy_payload data = true ->
  f_status data = VStr k ->
  (assoc k Part000.statusEmojis = Some g ->
   exists m, texts (trace (Part000.webhook w data)) = [VStr m]
             /\ includes (g ++ " <b>Status:</b> <code>" ++ k ++ "</code>") m
                = true)
  /\ (assoc k Index.statusEmojis = Some g ->
      exists m, texts (trace (Index.webhook w data)) = [VStr m]
                /\ includes (g ++ " <b>Status:</b> <code>" ++ k ++ "</code>") m
                   = true).
Proof.
  intros Hd Hk. split; intros Hg.
  - exists (part000_text w data).
    rewrite part000_deploy_run, delivery_texts by assumption.
    split; [reflexivity|].
    unfold part000_text.
    apply (includes_line _ (Part000.status_line g k)); [|apply includes_self].
    rewrite Hk. cbn [spliced].
    rewrite (glyph_listed _ Part000.default_glyph _ _ Hg
               (part000_glyphs_nonempty _ _ Hg)).
    simpl. tauto.
  - exists (index_text w data).
    rewrite index_deploy_run, delivery_texts by assumption.
    split; [reflexivity|].
    unfold index_text.
    apply (includes_line _ (Index.status_line g k)); [|apply includes_self].
    rewrite Hk. cbn [spliced].
    rewrite (glyph_listed _ Index.default_glyph _ _ Hg
               (index_glyphs_nonempty _ _ Hg)).
    simpl. tauto.
Qed.

Lemma listed_status_glyph_witness :
  exists m,
    texts (trace (Part000.webhook delivering example_event)) = [VStr m]
    /\ includes ("✅" ++ " <b>Status:</b> <code>" ++ "SUCCESS" ++ "</code>") m
       = true.
Proof.
  apply (proj1 (listed_status_glyph delivering example_event "SUCCESS" "✅"
                  eq_refl eq_refl)).
  reflexivity.
Defined.

(** X11.  For every DEPLOY payload whose status is absent, or is a string
    that is neither a key of the file's status table nor the name of a
    member of [Object.prototype], the status line of the message starts
    with the default glyph of the file. *)
Theorem unlisted_status_default_glyph (w : world) (data : value) :
  deploy_payload data = true ->
  (f_status data = VUndefined
   \/ exists k, f_status data = VStr k /\ object_prototype k = None
                /\ assoc k Part000.statusEmojis = None
                /\ assoc k Index.statusEmojis = None) ->
  (exists m, texts (trace (Part000.webhook w data)) = [VStr m]
             /\ includes (Part000.default_glyph ++ " <b>Status:</b>") m = true)
  /\ (exists m, texts (trace (Index.webhook w data)) = [VStr m]
                /\ includes (Index.default_glyph ++ " <b>Status:</b>") m = true).
Proof.
  intros Hd Hs.
  assert (HgP : glyph Part000.statusEmojis Part000.default_glyph (f_status data)
                = Part000.default_glyph).
  { destruct Hs as [->|[k [-> [Hp [HP _]]]]]; [reflexivity|].
    now apply glyph_unlisted. }
  assert (HgI : glyph Index.statusEmojis Index.default_glyph (f_status data)
                = Index.default_glyph).
  { destruct Hs as [->|[k [-> [Hp [_ HI]]]]]; [reflexivity|].
    now apply glyph_unlisted. }
  split.
  - exists (part000_text w data).
    rewrite part000_deploy_run, delivery_texts by assumption.
    split; [reflexivity|]. unfold part000_text. rewrite HgP.
    apply (includes_line _ (Part000.status_line Part000.default_glyph
                              (spliced (f_status data)))); [simpl; tauto|].
    unfold Part000.status_line.
    change (Part000.default_glyph ++ " <b>Status:</b> <code>"
            ++ spliced (f_status data) ++ "</code>")
      with (Part000.default_glyph ++ " <b>Status:</b>"
            ++ (" <code>" ++ spliced (f_status data) ++ "</code>")).
    rewrite <- append_assoc_s. apply includes_here.
  - exists (index_text w data).
    rewrite index_deploy_run, delivery_texts by assumption.
    split; [reflexivity|]. unfold index_text. rewrite HgI.
    apply (includes_line _ (Index.status_line Index.default_glyph
                              (spliced (f_status data)))); [simpl; tauto|].
    unfold Index.status_line.
    change (Index.default_glyph ++ " <b>Status:</b> <code>"
            ++ spliced (f_status data) ++ "</code>")
      with (Index.default_glyph ++ " <b>Status:</b>"
            ++ (" <code>" ++ spliced (f_status data) ++ "</code>")).
    rewrite <- append_assoc_s. apply includes_here.
Qed.

Lemma unlisted_status_default_glyph_witness :
  exists m,
    texts (trace (Part000.webhook delivering bare_deploy)) = [VStr m]
    /\ includes (Part000.default_glyph ++ " <b>Status:</b>") m = true.
Proof.
  apply (proj1 (unlisted_status_default_glyph delivering bare_deploy eq_refl
                  (or_introl eq_refl))).
Defined.

(* ===================================================================== *)
(** ** Routing                                                           *)
(* ===================================================================== *)

Lemma after_logger (e : event) (run : M response) :
  (([e], Ok tt) ;;; run) = (e :: trace run, outcome run).
Proof. destruct run as [tr r]. reflexivity. Qed.

Lemma part000_app_cases (w : world) (method path : string) (body : value) :
  Part000.app w method path body =
  (logged w method path :: trace (part000_routed w method path body),
   outcome (part000_routed w method path body)).
Proof.
  unfold Part000.app, request_logger, console_log, logged, part000_routed.
  rewrite after_logger. unfold Part000.routes, dispatch, handles.
  cbn [route_method route_path handler].
  destruct (method =? "POST"), (method =? "GET"), (method =? "HEAD"),
    (path =? "/webhook"), (path =? "/health"), (path =? "/"); reflexivity.
Qed.

Lemma index_app_cases (w : world) (method path : string) (body : value) :
  Index.app w method path body =
  (logged w method path :: trace (index_routed w method path body),
   outcome (index_routed w method path body)).
Proof.
  unfold Index.app, request_logger, console_log, logged, index_routed.
  rewrite after_logger. unfold Index.routes, dispatch, handles.
  cbn [route_method route_path handler].
  destruct (method =? "POST"), (method =? "GET"), (method =? "HEAD"),
    (path =? "/webhook"), (path =? "/health"), (path =? "/"); reflexivity.
Qed.

Ltac neq_false H := apply String.eqb_neq in H; rewrite ?H.





(** X14.  In both servers, [/health] and [/] ignore the request body: a
    GET (or HEAD) is answered 200, [/health] with the status "healthy",
    the ISO time of the request and the process uptime, [/] with the fixed
    description of the service; any other method on these paths, POST
    included, is answered 404. *)
Theorem information_endpoints (w : world) (method : string) (body : value) :
  let answer (r : response) :=
    Ok (if (method =? "GET") || (method =? "HEAD") then r
        else not_found_response) in
  (outcome (Part000.app w method "/health" body) = answer (health_response w)
   /\ outcome (Part000.app w method "/" body) = answer root_response)
  /\ (outcome (Index.app w method "/health" body) = answer (health_response w)
      /\ outcome (Index.app w method "/" body) = answer root_response).
Proof.
  cbv zeta. rewrite !part000_app_cases, !index_app_cases.
  unfold part000_routed, index_routed. cbn [String.eqb Ascii.eqb Bool.eqb].
  rewrite !andb_false_r.
  destruct ((method =? "GET") || (method =? "HEAD")); repeat split.
Qed.




(* ===================================================================== *)
(** ** The error-handling middleware                                     *)
(* ===================================================================== *)




(* ===================================================================== *)
(** ** Start-up                                                          *)
(* ===================================================================== *)

Lemma startup_cases (env : list (string * string)) :
  Startup.startup env =
  match truthy (Startup.env_get env "TELEGRAM_BOT_TOKEN"),
        truthy (Startup.env_get env "TELEGRAM_CHAT_ID") with
  | true, true =>
      Startup.Configured
        {| Startup.token := Startup.env_get env "TELEGRAM_BOT_TOKEN";
           Startup.TELEGRAM_CHAT_ID := Startup.env_get env "TELEGRAM_CHAT_ID";
           Startup.PORT := or_else (Startup.env_get env "PORT") (VNum "5000") |}
  | false, true =>
      Startup.Fatal
        "Missing required environment variables: TELEGRAM_BOT_TOKEN"
  | true, false =>
      Startup.Fatal
        "Missing required environment variables: TELEGRAM_CHAT_ID"
  | false, false =>
      Startup.Fatal
        "Missing required environment variables: TELEGRAM_BOT_TOKEN, TELEGRAM_CHAT_ID"
  end.
Proof.
  unfold Startup.startup, Startup.missingEnvVars, Startup.requiredEnvVars.
  cbn [filter].
  destruct (truthy (Startup.env_get env "TELEGRAM_BOT_TOKEN")),
    (truthy (Startup.env_get env "TELEGRAM_CHAT_ID")); reflexivity.
Qed.

Lemma env_get_truthy (env : list (string * string)) (name : string) :
  truthy (Startup.env_get env name) = true <->
  exists text, assoc name env = Some text /\ text <> "".
Proof.
  unfold Startup.env_get. destruct (assoc name env) as [text|]; cbn.
  - split.
    + intros H. exists text. split; [reflexivity|]. intros ->. discriminate.
    + intros [t [Ht Hne]]. injection Ht as <-.
      destruct (text =? "") eqn:E; [|reflexivity].
      apply String.eqb_eq in E. contradiction.
  - split; [discriminate|]. intros [t [Ht _]]. discriminate.
Qed.

(** X18.  The module loads exactly when both [TELEGRAM_BOT_TOKEN] and
    [TELEGRAM_CHAT_ID] are set to non-empty texts (a variable set to the
    empty text counts as missing).  The bot is then built from the token,
    messages go to the chat id, and the port is [PORT] when that is set and
    not empty, 5000 otherwise. *)
Theorem startup_configured (env : list (string * string)) :
  ((exists c, Startup.startup env = Startup.Configured c)
   <-> (exists t, assoc "TELEGRAM_BOT_TOKEN" env = Some t /\ t <> "")
       /\ (exists ch, assoc "TELEGRAM_CHAT_ID" env = Some ch /\ ch <> ""))
  /\ (forall c,
         Startup.startup env = Startup.Configured c ->
         (forall t, assoc "TELEGRAM_BOT_TOKEN" env = Some t ->
                    Startup.token c = VStr t)
         /\ (forall ch, assoc "TELEGRAM_CHAT_ID" env = Some ch ->
                        Startup.TELEGRAM_CHAT_ID c = VStr ch)
         /\ (forall p, assoc "PORT" env = Some p -> p <> "" ->
                       Startup.PORT c = VStr p)
         /\ (assoc "PORT" env = None \/ assoc "PORT" env = Some "" ->
             Startup.PORT c = VNum "5000")).
Proof.
  rewrite startup_cases, <- !env_get_truthy. split.
  - destruct (truthy (Startup.env_get env "TELEGRAM_BOT_TOKEN")),
      (truthy (Startup.env_get env "TELEGRAM_CHAT_ID")); split;
      try (intros [c H]; discriminate); try (intros [H1 H2]; discriminate);
      eauto.
  - intros c.
    destruct (truthy (Startup.env_get env "TELEGRAM_BOT_TOKEN")),
      (truthy (Startup.env_get env "TELEGRAM_CHAT_ID")); try discriminate.
    intros H. injection H as <-. cbn [Startup.token Startup.TELEGRAM_CHAT_ID
                                      Startup.PORT].
    unfold Startup.env_get, or_else.
    split; [|split; [|split]].
    + intros t ->. reflexivity.
    + intros ch ->. reflexivity.
    + intros p -> Hp. cbn. destruct (p =? "") eqn:E; [|reflexivity].
      apply String.eqb_eq in E. contradiction.
    + intros [->| ->]; reflexivity.
Qed.

(** X19.  When a required variable is missing or empty the module throws
    while it loads, and the message of the error names exactly the missing
    ones, the token before the chat id, separated by a comma and a
    space. *)
Theorem startup_fatal_message (env : list (string * string)) :
  let unset name := truthy (Startup.env_get env name) = false in
  (unset "TELEGRAM_BOT_TOKEN" /\ ~ unset "TELEGRAM_CHAT_ID" ->
   Startup.startup env =
   Startup.Fatal "Missing required environment variables: TELEGRAM_BOT_TOKEN")
  /\ (~ unset "TELEGRAM_BOT_TOKEN" /\ unset "TELEGRAM_CHAT_ID" ->
      Startup.startup env =
      Startup.Fatal "Missing required environment variables: TELEGRAM_CHAT_ID")
  /\ (unset "TELEGRAM_BOT_TOKEN" /\ unset "TELEGRAM_CHAT_ID" ->
      Startup.startup env =
      Startup.Fatal
        "Missing required environment variables: TELEGRAM_BOT_TOKEN, TELEGRAM_CHAT_ID").
Proof.
  cbv zeta. rewrite startup_cases.
  destruct (truthy (Startup.env_get env "TELEGRAM_BOT_TOKEN")),
    (truthy (Startup.env_get env "TELEGRAM_CHAT_ID"));
    repeat split; intros [H1 H2]; try reflexivity; try discriminate;
    try (now elim H1); try (now elim H2).
Qed.

Lemma startup_fatal_message_witness :
  Startup.startup env_without_chat =
  Startup.Fatal "Missing required environment variables: TELEGRAM_CHAT_ID".
Proof.
  apply (proj1 (proj2 (startup_fatal_message env_without_chat))).
  split; [discriminate | reflexivity].
Defined.

Lemma startup_configured_witness :
  exists c, Startup.startup complete_env = Startup.Configured c.
Proof.
  apply (proj2 (proj1 (startup_configured complete_env))).
  split; eexists; (split; [reflexivity | discriminate]).
Defined.
